(** * salt/pillar/ssm.py: the AWS SSM parameter ext_pillar

    A shallow embedding of [ext_pillar] (src/salt/pillar/ssm.py, lines
    90-122) together with the Python string primitives it calls
    ([str.split], [str.join], [str.format]) and the framework objects it
    reads ([__opts__], [__salt__], the logger).

    Reading of the source.  Line 109 of the module is written
      '/'.join([''] + [x in for x in root.split('/') + pillar.split('/') if x])
    which is not valid Python (a stray [in] after the first [x]); the
    embedding reads it as the comprehension
      [x for x in root.split('/') + pillar.split('/') if x]
    which is the only repair that deletes one token.  Everything else is
    taken as written. *)

From Stdlib Require Import Ascii ZArith Lia.
From stdpp Require Import base list strings gmap.

Local Open Scope Z_scope.

(** ** Python values and completions *)

(** The values that reach [ext_pillar] through [env] and [__opts__]:
    [None] or a [str]. *)
Inductive pyval :=
| PNone
| PStr (s : string).

#[global] Instance pyval_eq_dec : EqDecision pyval.
Proof. solve_decision. Defined.

(** Python truthiness: [None] and the empty string are false. *)
Definition truthy (v : pyval) : bool :=
  match v with
  | PNone => false
  | PStr s => negb (String.eqb s "")
  end.

(** [a or b] *)
Definition py_or (a b : pyval) : pyval := if truthy a then a else b.

(** [str(v)] *)
Definition py_str (v : pyval) : string :=
  match v with
  | PNone => "None"
  | PStr s => s
  end.

(** Exceptions, by class.  [IndexError] carries the replacement index that
    [str.format] reports; [OtherError] stands for every class the module
    does not name. *)
Inductive exn :=
| KeyError (key : string)
| ValueError (msg : string)
| IndexError (index : Z)
| AttributeError (msg : string)
| OtherError (class : string).

(** How a call into the framework completes: it returns or it raises. *)
Inductive result (A : Type) :=
| Returns (a : A)
| Raises (e : exn).
Arguments Returns {A} a.
Arguments Raises {A} e.

(** How a modelled computation completes.  [Unmodelled] marks a format
    string that uses a conversion ([!r]), a format specification
    ([:>8]), an attribute or index lookup ([{env.x}], [{env[0]}]) on a
    value that was found, or a field name in which digits are followed by
    a character outside ASCII: those parts of [str.format] are not
    embedded. *)
Inductive outcome (A : Type) :=
| Ok (a : A)
| Raised (e : exn)
| Unmodelled.
Arguments Ok {A} a.
Arguments Raised {A} e.
Arguments Unmodelled {A}.

Definition of_result {A} (r : result A) : outcome A :=
  match r with
  | Returns a => Ok a
  | Raises e => Raised e
  end.

Definition obind {A B} (o : outcome A) (k : A -> outcome B) : outcome B :=
  match o with
  | Ok a => k a
  | Raised e => Raised e
  | Unmodelled => Unmodelled
  end.

(** ** String primitives *)

Module PyStr.

(** [s.split(sep)] for a separator of one character. *)
Fixpoint split (sep : ascii) (s : string) : list string :=
  match s with
  | EmptyString => [EmptyString]
  | String c s' =>
      if Ascii.eqb c sep then EmptyString :: split sep s'
      else match split sep s' with
           | [] => [String c EmptyString]
           | w :: ws => String c w :: ws
           end
  end.

(** [sep.join(l)] *)
Fixpoint join (sep : string) (l : list string) : string :=
  match l with
  | [] => ""
  | x :: tl =>
      match tl with
      | [] => x
      | _ :: _ => x +:+ sep +:+ join sep tl
      end
  end.

(** [bool(s)] for a [str] *)
Definition nonempty (s : string) : bool :=
  match s with
  | EmptyString => false
  | String _ _ => true
  end.

(** [[x for x in l if x]] *)
Fixpoint keep_truthy (l : list string) : list string :=
  match l with
  | [] => []
  | x :: l' => if nonempty x then x :: keep_truthy l' else keep_truthy l'
  end.

(** [c in s] for a character. *)
Fixpoint mem (c : ascii) (s : string) : bool :=
  match s with
  | EmptyString => false
  | String c' s' => Ascii.eqb c' c || mem c s'
  end.

End PyStr.

(** Line 109: the path before placeholder substitution. *)
Definition join_path (root pillar : string) : string :=
  PyStr.join "/"
    ([""] ++ PyStr.keep_truthy (PyStr.split "/" root ++ PyStr.split "/" pillar)).

(** The specification's side of the path construction, written on its
    own and not from the primitives above.

    "Split on [/]": read the string from the left with the segment in
    progress; a [/] closes the segment and opens an empty one, any other
    character extends it, and the end of the string closes the last
    segment. *)
Fixpoint spec_split_from (current s : string) : list string :=
  match s with
  | EmptyString => [current]
  | String c s' =>
      if Ascii.eqb c "/" then current :: spec_split_from EmptyString s'
      else spec_split_from (current +:+ String c EmptyString) s'
  end.

Definition spec_split (s : string) : list string :=
  spec_split_from EmptyString s.

(** "Join with [/]": the first segment, then every further segment with
    a [/] written before it. *)
Definition spec_join (l : list string) : string :=
  match l with
  | [] => ""
  | first :: others =>
      first +:+ foldr (fun seg text => "/" +:+ seg +:+ text) "" others
  end.

(** The path following the words of the specification: split [root] on
    [/], split [pillar] on [/], concatenate the two segment sequences,
    discard empty segments, prepend a single leading empty segment, join
    with [/]. *)
Definition spec_path (root pillar : string) : string :=
  let segments := spec_split root ++ spec_split pillar in
  let kept := filter (fun s : string => s <> "") segments in
  spec_join ("" :: kept).

(** The segments that line 109 keeps. *)
Definition segments (root pillar : string) : list string :=
  PyStr.keep_truthy (PyStr.split "/" root ++ PyStr.split "/" pillar).

(** ** [str.format] with keyword arguments only

    [s.format( **kw )] as CPython's [MarkupIterator_next], [parse_field],
    [field_name_split], [get_integer] and [get_field_object] run it, with
    an empty tuple of positional arguments.  Fields are handled from left
    to right, so the first failing field decides the exception. *)

Module PyFormat.

(** [PY_SSIZE_T_MAX] of a 64-bit build. *)
Definition PY_SSIZE_T_MAX : Z := 2 ^ 63 - 1.

Definition digit_value (c : ascii) : option Z :=
  let n := Z.of_N (N_of_ascii c) in
  if (48 <=? n) && (n <=? 57) then Some (n - 48) else None.

(** A byte of an ASCII character.  A larger byte begins a character
    whose decimal value [Py_UNICODE_TODECIMAL] would look up. *)
Definition is_ascii (c : ascii) : bool := Z.of_N (N_of_ascii c) <? 128.

(** [get_integer]: [Ok None] is the C function's [-1] without an error
    (the name is empty or is not a number). *)
Fixpoint get_integer_from (acc : Z) (s : string) : outcome (option Z) :=
  match s with
  | EmptyString => Ok (Some acc)
  | String c s' =>
      match digit_value c with
      | None => if is_ascii c then Ok None else Unmodelled
      | Some d =>
          if (PY_SSIZE_T_MAX - d) / 10 <? acc
          then Raised (ValueError "Too many decimal digits in format string")
          else get_integer_from (acc * 10 + d) s'
      end
  end.

Definition get_integer (s : string) : outcome (option Z) :=
  match s with
  | EmptyString => Ok None
  | String _ _ => get_integer_from 0 s
  end.

(** [field_name_split]: the part of the field name before the first
    [.] or [[], and what follows it. *)
Fixpoint field_name_split (s : string) : string * string :=
  match s with
  | EmptyString => (EmptyString, EmptyString)
  | String c s' =>
      if Ascii.eqb c "." || Ascii.eqb c "[" then (EmptyString, s)
      else let '(first, rest) := field_name_split s' in (String c first, rest)
  end.

(** One replacement field with neither conversion nor format
    specification: [get_field_object] followed by [str()] of the
    value. *)
Definition render_field (kw : gmap string pyval) (name : string)
  : outcome string :=
  let '(first, rest) := field_name_split name in
  match get_integer first with
  | Raised e => Raised e
  | Unmodelled => Unmodelled
  | Ok (Some index) => Raised (IndexError index)
  | Ok None =>
      match first with
      | EmptyString => Raised (IndexError 0)
      | String _ _ =>
          match kw !! first with
          | None => Raised (KeyError first)
          | Some v =>
              match rest with
              | EmptyString => Ok (py_str v)
              | String _ _ => Unmodelled
              end
          end
      end
  end.

(** Where the scanner is: in literal text, in a field name after [{],
    or between [[] and []] inside a field name. *)
Inductive scan_state :=
| InText
| InField (name : string)
| InIndex (name : string).

Definition snoc (s : string) (c : ascii) : string :=
  s +:+ String c EmptyString.

Definition emit (c : ascii) (o : outcome string) : outcome string :=
  obind o (fun s => Ok (String c s)).

Fixpoint format_from (kw : gmap string pyval) (st : scan_state) (s : string)
  : outcome string :=
  match st with
  | InText =>
      match s with
      | EmptyString => Ok EmptyString
      | String c rest =>
          if Ascii.eqb c "{" then
            match rest with
            | EmptyString =>
                Raised (ValueError "Single '{' encountered in format string")
            | String c' rest' =>
                if Ascii.eqb c' "{" then emit "{" (format_from kw InText rest')
                else format_from kw (InField EmptyString) rest
            end
          else if Ascii.eqb c "}" then
            match rest with
            | EmptyString =>
                Raised (ValueError "Single '}' encountered in format string")
            | String c' rest' =>
                if Ascii.eqb c' "}" then emit "}" (format_from kw InText rest')
                else Raised (ValueError "Single '}' encountered in format string")
            end
          else emit c (format_from kw InText rest)
      end
  | InField name =>
      match s with
      | EmptyString => Raised (ValueError "expected '}' before end of string")
      | String c rest =>
          if Ascii.eqb c "{" then
            Raised (ValueError "unexpected '{' in field name")
          else if Ascii.eqb c "[" then format_from kw (InIndex (snoc name c)) rest
          else if Ascii.eqb c "}" then
            obind (render_field kw name)
              (fun v => obind (format_from kw InText rest)
                          (fun out => Ok (v +:+ out)))
          else if Ascii.eqb c ":" || Ascii.eqb c "!" then Unmodelled
          else format_from kw (InField (snoc name c)) rest
      end
  | InIndex name =>
      match s with
      | EmptyString => Raised (ValueError "expected '}' before end of string")
      | String c rest =>
          if Ascii.eqb c "]" then format_from kw (InField (snoc name c)) rest
          else format_from kw (InIndex (snoc name c)) rest
      end
  end.

(** [s.format( **kw )] *)
Definition format (s : string) (kw : gmap string pyval) : outcome string :=
  format_from kw InText s.

End PyFormat.

(** ** Framework objects *)

(** What [response.json()] decodes to.  An object is the list of its
    items, in order; its keys are distinct. *)
#[warning="-register-all"]
Inductive json :=
| JNull
| JBool (b : bool)
| JNum (n : Z)
| JStr (s : string)
| JArr (items : list json)
| JObj (items : list (string * json)).

(** The empty dict [{}]. *)
Definition empty_dict : json := JObj [].

Fixpoint assoc (key : string) (items : list (string * json)) : option json :=
  match items with
  | [] => None
  | (k, v) :: items' => if String.eqb k key then Some v else assoc key items'
  end.

(** [payload.get(key, default)]: only a dict has the method. *)
Definition dict_get (payload : json) (key : string) (default : json)
  : result json :=
  match payload with
  | JObj items =>
      match assoc key items with
      | Some v => Returns v
      | None => Returns default
      end
  | _ => Raises (AttributeError "object has no attribute 'get'")
  end.

(** The object the accessor returns: [status_code] and the completion of
    [json()]. *)
Record response := {
  status_code : Z;
  json_body : result json;
}.

(** The remote accessor: from a path to a response or an exception. *)
Abbreviation accessor := (string -> result response).

(** The two injected globals: [__opts__] and the dispatch table
    [__salt__]. *)
Record globals := {
  opts : gmap string pyval;
  salt : gmap string accessor;
}.

(** [__opts__.get(key)] *)
Definition opts_get (g : globals) (key : string) : pyval :=
  match opts g !! key with
  | Some v => v
  | None => PNone
  end.

(** Line 105: [__opts__.get("pillarenv") or __opts__.get("saltenv")] *)
Definition active_env (g : globals) : pyval :=
  py_or (opts_get g "pillarenv") (opts_get g "saltenv").

(** ** Effects: the calls made and the log entries written *)

Inductive level := INFO | ERROR.

Inductive event :=
| EvCall (path : string)
| EvLog (lvl : level) (msg : string).

#[global] Instance level_eq_dec : EqDecision level.
Proof. solve_decision. Defined.

(** A computation reads the trace so far and extends it. *)
Definition M (A : Type) : Type := list event -> outcome A * list event.

#[global] Instance M_ret : MRet M := fun A a tr => (Ok a, tr).

#[global] Instance M_bind : MBind M := fun A B k m tr =>
  match m tr with
  | (Ok a, tr') => k a tr'
  | (Raised e, tr') => (Raised e, tr')
  | (Unmodelled, tr') => (Unmodelled, tr')
  end.

Definition lift {A} (o : outcome A) : M A := fun tr => (o, tr).

Definition tell (e : event) : M unit := fun tr => (Ok tt, tr ++ [e]).

(** [try: body except KeyError: handler] *)
Definition try_except_KeyError {A} (body : M A) (handler : M A) : M A :=
  fun tr =>
    match body tr with
    | (Raised (KeyError _), tr') => handler tr'
    | r => r
    end.

(** [log.info(fmt, path)] and [log.error(fmt, path)] with [fmt] ending in
    [%s]. *)
Definition log (lvl : level) (prefix path : string) : M unit :=
  tell (EvLog lvl (prefix +:+ path)).

(** [__salt__["boto_ssm.get_parameter"](path)]: the dispatch lookup raises
    [KeyError] when the function is not loaded; otherwise the accessor is
    called. *)
Definition get_parameter (g : globals) (path : string) : M response :=
  match salt g !! "boto_ssm.get_parameter" with
  | None => lift (Raised (KeyError "boto_ssm.get_parameter"))
  | Some f => tell (EvCall path) ;; lift (of_result (f path))
  end.

(** Lines 109-111: the path handed to the accessor. *)
Definition resolve_path (g : globals) (minion_id pillar root : string)
  : outcome string :=
  let path := join_path root pillar in
  obind (PyFormat.format path {[ "env" := active_env g ]}) (fun path =>
  PyFormat.format path {[ "minion" := PStr minion_id ]}).

(** Lines 113-122. *)
Definition fetch (g : globals) (path : string) : M json :=
  let data := empty_dict in
  try_except_KeyError
    (response ← get_parameter g path;
     if status_code response =? 200 then
       payload ← lift (of_result (json_body response));
       lift (of_result (dict_get payload "data" empty_dict))
     else
       log INFO "SSM parameter not found for: " path;;
       mret data)
    (log ERROR "No such path in SSM: " path;;
     mret data).

(** Lines 90-122. *)
Definition ext_pillar (g : globals) (minion_id pillar : string) (env : pyval)
  (root : string) : M json :=
  let data := empty_dict in
  let __env__ := active_env g in
  let out_of_scope :=
    if truthy env then if bool_decide (env <> __env__) then true else false
    else false in
  if out_of_scope then mret data
  else
    path ← lift (resolve_path g minion_id pillar root);
    fetch g path.

(** The calls and the log entries of a trace. *)
Definition calls (tr : list event) : list string :=
  omap (fun e => match e with EvCall p => Some p | _ => None end) tr.

Definition logged (tr : list event) : list (level * string) :=
  omap (fun e => match e with EvLog l m => Some (l, m) | _ => None end) tr.

(** ** Conditions of the claims and sample framework state *)

(** The scope check of lines 106-108 fires: [env] is truthy and differs
    from the active environment. *)
Definition scoped_out (g : globals) (env : pyval) : Prop :=
  truthy env = true /\ env <> active_env g.

(** It does not fire: [env] is [None] or empty, or names the active
    environment. *)
Definition in_scope (g : globals) (env : pyval) : Prop :=
  truthy env = false \/ env = active_env g.

(** The expression of line 114 raises [KeyError]: the function is not in
    the dispatch table, or the accessor raises it. *)
Definition lookup_fails (g : globals) (path : string) : Prop :=
  match salt g !! "boto_ssm.get_parameter" with
  | None => True
  | Some f => exists key, f path = Raises (KeyError key)
  end.

(** Sample framework state: [pillarenv] is [prod], and the dispatch table
    holds the given accessor. *)
Definition sample_globals (f : accessor) : globals :=
  {| opts := {[ "pillarenv" := PStr "prod" ]};
     salt := {[ "boto_ssm.get_parameter" := f ]} |}.

Definition found_accessor : accessor := fun _ =>
  Returns {| status_code := 200;
             json_body := Returns (JObj [("data", JObj [("password", JStr "x")])]) |}.

(** A 200 answer whose payload holds [data] after another key, one whose
    payload has no [data] key, and a 204 answer that carries [data]. *)
Definition mixed_accessor : accessor := fun _ =>
  Returns {| status_code := 200;
             json_body :=
               Returns (JObj [("other", JNum 1);
                              ("data", JObj [("password", JStr "x")])]) |}.

Definition dataless_accessor : accessor := fun _ =>
  Returns {| status_code := 200;
             json_body := Returns (JObj [("other", JNum 1)]) |}.

Definition no_content_accessor : accessor := fun _ =>
  Returns {| status_code := 204;
             json_body := Returns (JObj [("data", JObj [("password", JStr "x")])]) |}.

Definition array_accessor : accessor := fun _ =>
  Returns {| status_code := 200; json_body := Returns (JArr []) |}.

Definition missing_accessor : accessor := fun _ =>
  Returns {| status_code := 404; json_body := Returns (JObj []) |}.

Definition key_error_accessor : accessor := fun path => Raises (KeyError path).

Definition failing_accessor : accessor := fun _ =>
  Raises (OtherError "BotoServerError").

Ltac unfold_run :=
  unfold ext_pillar, fetch, get_parameter, try_except_KeyError, log, tell, lift,
    mbind, mret, M_bind, M_ret in *.

(** ** Conditions of the further properties *)

(** The string holds neither [{] nor [}]. *)
Definition brace_free (s : string) : bool :=
  negb (PyStr.mem "{" s) && negb (PyStr.mem "}" s).

(** Every brace doubled: how a format string writes literal text. *)
Fixpoint escape (s : string) : string :=
  match s with
  | EmptyString => EmptyString
  | String c s' =>
      if Ascii.eqb c "{" || Ascii.eqb c "}" then String c (String c (escape s'))
      else String c (escape s')
  end.

(** Sample accessors: a 200 answer whose payload is a list, and a 200
    answer whose body does not decode. *)
Definition list_accessor : accessor := fun _ =>
  Returns {| status_code := 200; json_body := Returns (JArr []) |}.

Definition garbled_accessor : accessor := fun _ =>
  Returns {| status_code := 200;
             json_body := Raises (ValueError "Expecting value") |}.

(** Framework state with neither [pillarenv] nor [saltenv] set. *)
Definition bare_globals (f : accessor) : globals :=
  {| opts := ∅;
     salt := {[ "boto_ssm.get_parameter" := f ]} |}.

(** Framework state with an empty [pillarenv] and [saltenv] set to
    [dev]. *)
Definition fallback_globals (f : accessor) : globals :=
  {| opts := {[ "pillarenv" := PStr ""; "saltenv" := PStr "dev" ]};
     salt := {[ "boto_ssm.get_parameter" := f ]} |}.

(** ** Lemmas on the string primitives *)

Section split_join.
Variable sep : ascii.

Lemma split_not_nil s : PyStr.split sep s <> [].
Proof.
  destruct s as [|c s]; simpl; [discriminate|].
  destruct (Ascii.eqb c sep); [discriminate|].
  destruct (PyStr.split sep s); discriminate.
Qed.

(** No piece of a split holds the separator. *)
Lemma split_pieces_free s :
  Forall (fun w => PyStr.mem sep w = false) (PyStr.split sep s).
Proof.
  induction s as [|c s IH]; simpl.
  - repeat constructor.
  - destruct (Ascii.eqb c sep) eqn:E.
    + constructor; [reflexivity | exact IH].
    + destruct (PyStr.split sep s) as [|w ws]; inversion IH; subst.
      * repeat constructor. simpl. rewrite E. reflexivity.
      * constructor; [|assumption]. simpl. rewrite E. assumption.
Qed.

(** A string without the separator is the only piece of its split. *)
Lemma split_free w : PyStr.mem sep w = false -> PyStr.split sep w = [w].
Proof.
  induction w as [|c w IH]; simpl; [reflexivity|].
  intros H. apply orb_false_iff in H as [E Hw].
  rewrite E, (IH Hw). reflexivity.
Qed.

(** Splitting stops a separator-free prefix at the separator after it. *)
Lemma split_app_sep w rest :
  PyStr.mem sep w = false ->
  PyStr.split sep (w +:+ String sep rest) = w :: PyStr.split sep rest.
Proof.
  induction w as [|c w IH]; simpl; intros H.
  - rewrite Ascii.eqb_refl. reflexivity.
  - apply orb_false_iff in H as [E Hw].
    rewrite E, (IH Hw). reflexivity.
Qed.

(** [split] undoes [join] on separator-free pieces. *)
Lemma split_join (l : list string) :
  l <> [] ->
  Forall (fun w => PyStr.mem sep w = false) l ->
  PyStr.split sep (PyStr.join (String sep EmptyString) l) = l.
Proof.
  induction l as [|w l IH]; [congruence|].
  intros _ Hall. inversion Hall as [|? ? Hw Hl]; subst.
  destruct l as [|w' l'].
  - simpl. apply split_free, Hw.
  - change (PyStr.join (String sep EmptyString) (w :: w' :: l'))
      with (w +:+ String sep (PyStr.join (String sep EmptyString) (w' :: l'))).
    rewrite (split_app_sep _ _ Hw), IH; [reflexivity | discriminate | exact Hl].
Qed.
End split_join.

Lemma append_cons c (a b : string) : String c a +:+ b = String c (a +:+ b).
Proof. reflexivity. Qed.

Lemma append_nil_l (b : string) : "" +:+ b = b.
Proof. reflexivity. Qed.

Lemma append_assoc (a b c : string) : (a +:+ b) +:+ c = a +:+ b +:+ c.
Proof.
  induction a as [|x a IH]; [reflexivity|].
  change (String x ((a +:+ b) +:+ c) = String x (a +:+ b +:+ c)).
  rewrite IH. reflexivity.
Qed.

Lemma append_nil_r (a : string) : a +:+ "" = a.
Proof.
  induction a as [|x a IH]; [reflexivity|].
  rewrite append_cons, IH. reflexivity.
Qed.

Lemma nonempty_true s : PyStr.nonempty s = true <-> s <> "".
Proof. destruct s; simpl; split; congruence. Qed.

(** The comprehension of line 109 is a filter. *)
Lemma keep_truthy_filter (l : list string) :
  PyStr.keep_truthy l = filter (fun s : string => s <> "") l.
Proof.
  induction l as [|x l IH]; [reflexivity|].
  simpl. destruct x as [|c x]; simpl.
  - rewrite filter_cons_False by congruence. exact IH.
  - rewrite filter_cons_True by congruence. f_equal. exact IH.
Qed.

Lemma keep_truthy_Forall (P : string -> Prop) l :
  Forall P l -> Forall (fun s => s <> "" /\ P s) (PyStr.keep_truthy l).
Proof.
  induction 1 as [|x l Hx Hl IH]; simpl; [constructor|].
  destruct (PyStr.nonempty x) eqn:E; [|exact IH].
  constructor; [|exact IH]. split; [apply nonempty_true, E | exact Hx].
Qed.

Lemma segments_clean root pillar :
  Forall (fun s => s <> "" /\ PyStr.mem "/" s = false) (segments root pillar).
Proof.
  apply keep_truthy_Forall, Forall_app; split; apply split_pieces_free.
Qed.

Lemma join_path_segments root pillar :
  join_path root pillar = PyStr.join "/" ("" :: segments root pillar).
Proof. reflexivity. Qed.

(** ** Path construction (line 109) *)

Example join_path_auth : join_path "" "auth" = "/auth".
Proof. reflexivity. Qed.

(** [str.split] on [/] is the specification's splitting. *)
Lemma spec_split_from_split current s :
  spec_split_from current s
  = match PyStr.split "/" s with
    | [] => [current]
    | w :: ws => (current +:+ w) :: ws
    end.
Proof.
  revert current. induction s as [|c s IH]; intros current.
  - simpl. rewrite append_nil_r. reflexivity.
  - simpl. destruct (Ascii.eqb c "/").
    + rewrite IH, append_nil_r.
      pose proof (split_not_nil "/" s) as Hne.
      destruct (PyStr.split "/" s); [congruence | reflexivity].
    + rewrite IH.
      destruct (PyStr.split "/" s) as [|w ws].
      * reflexivity.
      * rewrite append_assoc. reflexivity.
Qed.

Lemma spec_split_split s : spec_split s = PyStr.split "/" s.
Proof.
  unfold spec_split. rewrite spec_split_from_split.
  pose proof (split_not_nil "/" s) as Hne.
  destruct (PyStr.split "/" s); [congruence | reflexivity].
Qed.

(** [str.join] with [/] is the specification's joining. *)
Lemma spec_join_join l : spec_join l = PyStr.join "/" l.
Proof.
  induction l as [|x l IH]; [reflexivity|].
  destruct l as [|y l]; [apply append_nil_r|].
  change (PyStr.join "/" (x :: y :: l))
    with (x +:+ "/" +:+ PyStr.join "/" (y :: l)).
  rewrite <- IH. reflexivity.
Qed.

(** C6: the path of line 109 is the path of the stated algorithm (split
    [root] on [/], split [pillar] on [/], concatenate, discard the empty
    segments, prepend one empty segment, join with [/]), the algorithm
    being written on its own in [spec_path]; for [root = ""] and
    [pillar = "auth"] the path is [/auth], and for [root = "a/b"] and
    [pillar = "c//d/"] it is [/a/b/c/d]. *)
Theorem join_path_follows_spec :
  (forall root pillar, join_path root pillar = spec_path root pillar) /\
  join_path "" "auth" = "/auth" /\
  join_path "a/b" "c//d/" = "/a/b/c/d".
Proof.
  split; [|split; reflexivity].
  intros root pillar. unfold join_path, spec_path.
  rewrite !spec_split_split, spec_join_join, keep_truthy_filter. reflexivity.
Qed.



(** ** Placeholder substitution (lines 110-111) *)

(** A string without braces is its own format. *)
Lemma format_plain kw s :
  PyStr.mem "{" s = false -> PyStr.mem "}" s = false ->
  PyFormat.format s kw = Ok s.
Proof.
  unfold PyFormat.format.
  induction s as [|c s IH]; simpl; [reflexivity|].
  intros Ho Hc.
  apply orb_false_iff in Ho as [Eo Ho]. apply orb_false_iff in Hc as [Ec Hc].
  rewrite Eo, Ec, (IH Ho Hc). reflexivity.
Qed.

(** Without braces in the joined path both passes leave it unchanged. *)
Lemma resolve_path_plain g minion_id pillar root :
  PyStr.mem "{" (join_path root pillar) = false ->
  PyStr.mem "}" (join_path root pillar) = false ->
  resolve_path g minion_id pillar root = Ok (join_path root pillar).
Proof.
  intros Ho Hc. unfold resolve_path.
  rewrite (format_plain _ _ Ho Hc). simpl. apply format_plain; assumption.
Qed.

Section format_examples.
Let kw : gmap string pyval := {[ "env" := PStr "prod" ]}.

Example format_env : PyFormat.format "/{env}/x" kw = Ok "/prod/x".
Proof. vm_compute. reflexivity. Qed.
Example format_other_placeholder :
  PyFormat.format "/{env}/{minion}" kw = Raised (KeyError "minion").
Proof. vm_compute. reflexivity. Qed.
Example format_escaped :
  PyFormat.format "a}}b{{c/{{minion}}/{env}" kw = Ok "a}b{c/{minion}/prod".
Proof. vm_compute. reflexivity. Qed.
Example format_positional :
  PyFormat.format "{00}" kw = Raised (IndexError 0).
Proof. vm_compute. reflexivity. Qed.
Example format_auto :
  PyFormat.format "{}" kw = Raised (IndexError 0).
Proof. vm_compute. reflexivity. Qed.
Example format_overflow :
  PyFormat.format "{9223372036854775808}" kw
  = Raised (ValueError "Too many decimal digits in format string").
Proof. vm_compute. reflexivity. Qed.
Example format_max :
  PyFormat.format "{9223372036854775807}" kw
  = Raised (IndexError 9223372036854775807).
Proof. vm_compute. reflexivity. Qed.
Example format_open : PyFormat.format "{env[x}" kw
  = Raised (ValueError "expected '}' before end of string").
Proof. vm_compute. reflexivity. Qed.
Example format_index_skips : PyFormat.format "{a[}]}" kw = Raised (KeyError "a").
Proof. vm_compute. reflexivity. Qed.
Example format_first_error : PyFormat.format "{foo}{" kw = Raised (KeyError "foo").
Proof. vm_compute. reflexivity. Qed.
Example format_close : PyFormat.format "{env}}" kw
  = Raised (ValueError "Single '}' encountered in format string").
Proof. vm_compute. reflexivity. Qed.
Example format_none :
  PyFormat.format "{env}" {[ "env" := PNone ]} = Ok "None".
Proof. vm_compute. reflexivity. Qed.
End format_examples.

(** ** The resolver *)

Lemma in_scope_check g env :
  in_scope g env ->
  (if truthy env then if bool_decide (env <> active_env g) then true else false
   else false) = false.
Proof.
  intros [H | H].
  - rewrite H. reflexivity.
  - destruct (truthy env); [|reflexivity].
    rewrite bool_decide_eq_false_2; [reflexivity | intros Hne; exact (Hne H)].
Qed.

Lemma scoped_out_check g env :
  scoped_out g env ->
  (if truthy env then if bool_decide (env <> active_env g) then true else false
   else false) = true.
Proof.
  intros [H Hne]. rewrite H, bool_decide_eq_true_2; [reflexivity | exact Hne].
Qed.

Lemma scope_dec g env : {scoped_out g env} + {in_scope g env}.
Proof.
  unfold scoped_out, in_scope.
  destruct (truthy env); [|right; left; reflexivity].
  destruct (decide (env = active_env g)) as [E | N].
  - right; right; exact E.
  - left; split; [reflexivity | exact N].
Qed.

(** Past the scope check the resolver is lines 109-122. *)
Lemma ext_pillar_in_scope g minion_id pillar env root path tr :
  in_scope g env ->
  resolve_path g minion_id pillar root = Ok path ->
  ext_pillar g minion_id pillar env root tr = fetch g path tr.
Proof.
  intros Hin Hpath. unfold ext_pillar.
  cbv zeta. rewrite (in_scope_check _ _ Hin).
  unfold mbind, M_bind, lift. rewrite Hpath. reflexivity.
Qed.

Lemma ext_pillar_scoped_out g minion_id pillar env root tr :
  scoped_out g env ->
  ext_pillar g minion_id pillar env root tr = (Ok empty_dict, tr).
Proof.
  intros Hout. unfold ext_pillar.
  cbv zeta. rewrite (scoped_out_check _ _ Hout). reflexivity.
Qed.

(** When substitution raises, so does the resolver, before line 114. *)
Lemma ext_pillar_substitution_raises g minion_id pillar env root e tr :
  in_scope g env ->
  resolve_path g minion_id pillar root = Raised e ->
  ext_pillar g minion_id pillar env root tr = (Raised e, tr).
Proof.
  intros Hin Hpath. unfold ext_pillar.
  cbv zeta. rewrite (in_scope_check _ _ Hin).
  unfold mbind, M_bind, lift. rewrite Hpath. reflexivity.
Qed.

Lemma fetch_unregistered g path tr :
  salt g !! "boto_ssm.get_parameter" = None ->
  fetch g path tr
  = (Ok empty_dict, tr ++ [EvLog ERROR ("No such path in SSM: " +:+ path)]).
Proof. intros H. unfold_run. rewrite H. reflexivity. Qed.

Lemma fetch_key_error g f path key tr :
  salt g !! "boto_ssm.get_parameter" = Some f ->
  f path = Raises (KeyError key) ->
  fetch g path tr
  = (Ok empty_dict,
     (tr ++ [EvCall path]) ++ [EvLog ERROR ("No such path in SSM: " +:+ path)]).
Proof. intros H Hf. unfold_run. rewrite H, Hf. reflexivity. Qed.

Lemma fetch_other_error g f path e tr :
  salt g !! "boto_ssm.get_parameter" = Some f ->
  f path = Raises e ->
  (forall key, e <> KeyError key) ->
  fetch g path tr = (Raised e, tr ++ [EvCall path]).
Proof.
  intros H Hf He. unfold_run. rewrite H, Hf. simpl.
  destruct e; try reflexivity. exfalso. eapply He. reflexivity.
Qed.

Lemma fetch_not_found g f path r tr :
  salt g !! "boto_ssm.get_parameter" = Some f ->
  f path = Returns r ->
  status_code r <> 200 ->
  fetch g path tr
  = (Ok empty_dict,
     (tr ++ [EvCall path])
       ++ [EvLog INFO ("SSM parameter not found for: " +:+ path)]).
Proof.
  intros H Hf Hs. unfold_run. rewrite H, Hf. simpl.
  apply Z.eqb_neq in Hs. rewrite Hs. reflexivity.
Qed.

Lemma fetch_found g f path r items tr :
  salt g !! "boto_ssm.get_parameter" = Some f ->
  f path = Returns r ->
  status_code r = 200 ->
  json_body r = Returns (JObj items) ->
  fetch g path tr
  = (Ok (default empty_dict (assoc "data" items)), tr ++ [EvCall path]).
Proof.
  intros H Hf Hs Hj. unfold_run. rewrite H, Hf. simpl.
  rewrite Hs, Hj. simpl. destruct (assoc "data" items); reflexivity.
Qed.

(** Past the scope check and the substitution, a registered accessor is
    called exactly once, with the resolved path. *)
Lemma fetch_calls_once g f path :
  salt g !! "boto_ssm.get_parameter" = Some f ->
  calls (fetch g path []).2 = [path].
Proof.
  intros H. unfold_run. rewrite H. simpl.
  destruct (f path) as [r | e]; simpl.
  - destruct (status_code r =? 200); simpl; [|reflexivity].
    destruct (json_body r) as [payload | e]; simpl.
    + destruct (dict_get payload "data" empty_dict) as [? | []]; reflexivity.
    + destruct e; reflexivity.
  - destruct e; reflexivity.
Qed.

(** ** The claims on the resolver *)

(** C1, as the claim states it, fails: an exception of the accessor that
    is not a [KeyError] passes through the [try] block of lines 113-120
    and reaches the caller. *)
Lemma ext_pillar_accessor_error_escapes :
  ext_pillar (sample_globals failing_accessor) "web1" "auth" PNone "" []
  = (Raised (OtherError "BotoServerError"), [EvCall "/auth"]) /\
  ~ (exists data tr,
        ext_pillar (sample_globals failing_accessor) "web1" "auth" PNone "" []
        = (Ok data, tr)).
Proof.
  assert (E : ext_pillar (sample_globals failing_accessor) "web1" "auth" PNone "" []
              = (Raised (OtherError "BotoServerError"), [EvCall "/auth"]))
    by (vm_compute; reflexivity).
  split; [exact E|]. intros (data & tr & H). rewrite E in H. discriminate.
Qed.

(** What [assoc] finds is an item of the object, and it finds nothing
    only when no item has the key. *)
Lemma assoc_Some key items value :
  assoc key items = Some value -> (key, value) ∈ items.
Proof.
  induction items as [|[k v] items IH]; simpl; [discriminate|].
  destruct (String.eqb k key) eqn:E.
  - intros [= ->]. apply String.eqb_eq in E. subst k. left.
  - intros H. right. apply IH, H.
Qed.

Lemma assoc_None key items :
  assoc key items = None -> key ∉ items.*1.
Proof.
  induction items as [|[k v] items IH]; simpl; intros H.
  - apply not_elem_of_nil.
  - destruct (String.eqb k key) eqn:E; [discriminate|].
    apply String.eqb_neq in E. apply not_elem_of_cons. split; [congruence|].
    apply IH, H.
Qed.

(** C1, amended: when the scope check fires, or when the substitution of
    lines 110-111 succeeds and the accessor call raises [KeyError],
    answers with a status other than 200, or answers 200 with a payload
    that decodes to an object, the resolver raises nothing.  A scope
    mismatch returns the empty mapping with no remote call and no log
    entry; a lookup failure returns the empty mapping together with one
    log entry, at ERROR; a not-found answer returns the empty mapping
    together with one log entry, at INFO; a 200 answer with an object
    payload returns, without a log entry, an item of the object under
    [data], or the empty mapping when the object has no such key.  An
    exception of the accessor that is not a [KeyError] is not caught: it
    reaches the caller after the one call, unlogged. *)
Theorem ext_pillar_absorbs_failures g minion_id pillar env root :
  (scoped_out g env ->
   ext_pillar g minion_id pillar env root [] = (Ok empty_dict, [])) /\
  (forall path,
      in_scope g env ->
      resolve_path g minion_id pillar root = Ok path ->
      (lookup_fails g path ->
       exists tr,
         ext_pillar g minion_id pillar env root [] = (Ok empty_dict, tr) /\
         logged tr = [(ERROR, "No such path in SSM: " +:+ path)]) /\
      (forall f r,
          salt g !! "boto_ssm.get_parameter" = Some f ->
          f path = Returns r ->
          (status_code r <> 200 ->
           ext_pillar g minion_id pillar env root []
           = (Ok empty_dict,
              [EvCall path;
               EvLog INFO ("SSM parameter not found for: " +:+ path)])) /\
          (status_code r = 200 ->
           forall items,
             json_body r = Returns (JObj items) ->
             exists data,
               ext_pillar g minion_id pillar env root []
               = (Ok data, [EvCall path]) /\
               (("data", data) ∈ items \/
                (data = empty_dict /\ "data" ∉ items.*1)))) /\
      (forall f e,
          salt g !! "boto_ssm.get_parameter" = Some f ->
          f path = Raises e ->
          (forall key, e <> KeyError key) ->
          ext_pillar g minion_id pillar env root [] = (Raised e, [EvCall path]))).
Proof.
  split.
  { intros Hout. apply ext_pillar_scoped_out, Hout. }
  intros path Hin Hpath.
  rewrite (ext_pillar_in_scope _ _ _ _ _ _ _ Hin Hpath).
  split; [|split].
  - unfold lookup_fails. intros Hfail.
    destruct (salt g !! "boto_ssm.get_parameter") as [f|] eqn:Hsalt.
    + destruct Hfail as [key Hf].
      rewrite (fetch_key_error _ _ _ _ [] Hsalt Hf). eexists. split; reflexivity.
    + rewrite (fetch_unregistered _ _ [] Hsalt). eexists. split; reflexivity.
  - intros f r Hsalt Hf. split.
    + intros Hs. exact (fetch_not_found _ _ _ _ [] Hsalt Hf Hs).
    + intros Hs items Hj.
      rewrite (fetch_found _ _ _ _ _ [] Hsalt Hf Hs Hj).
      destruct (assoc "data" items) as [value|] eqn:E.
      * exists value. split; [reflexivity|]. left. apply assoc_Some, E.
      * exists empty_dict. split; [reflexivity|]. right.
        split; [reflexivity | apply assoc_None, E].
  - intros f e Hsalt Hf He. exact (fetch_other_error _ _ _ _ [] Hsalt Hf He).
Qed.

Lemma ext_pillar_absorbs_failures_witness :
  ext_pillar (sample_globals missing_accessor) "web1" "auth" PNone "/{env}" []
  = (Ok empty_dict,
     [EvCall "/prod/auth";
      EvLog INFO ("SSM parameter not found for: " +:+ "/prod/auth")]) /\
  (exists tr,
      ext_pillar (sample_globals key_error_accessor) "web1" "auth" PNone "" []
      = (Ok empty_dict, tr) /\
      logged tr = [(ERROR, "No such path in SSM: " +:+ "/auth")]) /\
  ext_pillar (sample_globals found_accessor) "web1" "auth" (PStr "dev") "" []
  = (Ok empty_dict, []).
Proof.
  split; [|split].
  - destruct (ext_pillar_absorbs_failures (sample_globals missing_accessor)
                "web1" "auth" PNone "/{env}") as [_ Hrun].
    destruct (Hrun "/prod/auth") as (_ & Hanswer & _).
    + left. reflexivity.
    + vm_compute. reflexivity.
    + destruct (Hanswer missing_accessor
                  {| status_code := 404; json_body := Returns (JObj []) |})
        as [Hnot_found _].
      * vm_compute. reflexivity.
      * reflexivity.
      * apply Hnot_found. simpl. lia.
  - destruct (ext_pillar_absorbs_failures (sample_globals key_error_accessor)
                "web1" "auth" PNone "") as [_ Hrun].
    destruct (Hrun "/auth") as (Hfail & _).
    + left. reflexivity.
    + vm_compute. reflexivity.
    + apply Hfail. vm_compute. exists "/auth". reflexivity.
  - destruct (ext_pillar_absorbs_failures (sample_globals found_accessor)
                "web1" "auth" (PStr "dev") "") as [Hout _].
    apply Hout. split; [reflexivity | vm_compute; discriminate].
Defined.

(** C2: at [root = "/{env}/{minion}"] with [prod] as the active
    environment and [web1] as the minion, the first pass of line 110
    raises [KeyError('minion')]: the path [/prod/web1] is never
    produced, and the exception reaches the caller before any remote
    call. *)
Theorem ext_pillar_two_placeholders_raise :
  join_path "/{env}/{minion}" "" = "/{env}/{minion}" /\
  PyFormat.format "/{env}/{minion}" {[ "env" := PStr "prod" ]}
  = Raised (KeyError "minion") /\
  resolve_path (sample_globals found_accessor) "web1" "" "/{env}/{minion}"
  = Raised (KeyError "minion") /\
  ext_pillar (sample_globals found_accessor) "web1" "" PNone "/{env}/{minion}" []
  = (Raised (KeyError "minion"), []).
Proof. repeat split; vm_compute; reflexivity. Qed.

(** Only a root that doubles the braces of the second placeholder gets
    through both passes. *)
Example resolve_path_escaped_minion :
  resolve_path (sample_globals found_accessor) "web1" "" "/{env}/{{minion}}"
  = Ok "/prod/web1".
Proof. vm_compute. reflexivity. Qed.

(** C4: when [env] is set (a non-empty string) and differs from the
    active environment, the resolver returns the empty mapping at once:
    the trace is left empty, so no remote call is made. *)
Theorem ext_pillar_scope_mismatch g minion_id pillar e root :
  e <> "" ->
  PStr e <> active_env g ->
  ext_pillar g minion_id pillar (PStr e) root [] = (Ok empty_dict, []) /\
  calls (ext_pillar g minion_id pillar (PStr e) root []).2 = [].
Proof.
  intros He Hne.
  assert (Hout : scoped_out g (PStr e)).
  { split; [|exact Hne]. simpl. apply negb_true_iff, String.eqb_neq, He. }
  rewrite (ext_pillar_scoped_out _ _ _ _ _ _ Hout). split; reflexivity.
Qed.

Lemma ext_pillar_scope_mismatch_witness :
  ext_pillar (sample_globals found_accessor) "web1" "auth" (PStr "dev") "/{env}" []
  = (Ok empty_dict, []) /\
  calls (ext_pillar (sample_globals found_accessor) "web1" "auth" (PStr "dev")
           "/{env}" []).2 = [].
Proof.
  apply (ext_pillar_scope_mismatch (sample_globals found_accessor)
           "web1" "auth" "dev" "/{env}").
  - discriminate.
  - vm_compute. discriminate.
Defined.

(** C5: with [env] unset and the root [/{minion}] of the module's own
    documentation, the resolver raises [KeyError('minion')] at line 110
    and makes no remote call at all. *)
Theorem ext_pillar_documented_root_no_call :
  in_scope (sample_globals found_accessor) PNone /\
  ext_pillar (sample_globals found_accessor) "web1" "" PNone "/{minion}" []
  = (Raised (KeyError "minion"), []) /\
  calls (ext_pillar (sample_globals found_accessor) "web1" "" PNone
           "/{minion}" []).2 = [].
Proof. split; [left; reflexivity|]. split; vm_compute; reflexivity. Qed.

(** Where both passes succeed and the accessor is loaded, the resolver
    calls it exactly once, with the resolved path. *)
Lemma ext_pillar_calls_once g f minion_id pillar env root path :
  in_scope g env ->
  resolve_path g minion_id pillar root = Ok path ->
  salt g !! "boto_ssm.get_parameter" = Some f ->
  calls (ext_pillar g minion_id pillar env root []).2 = [path].
Proof.
  intros Hin Hpath Hsalt.
  rewrite (ext_pillar_in_scope _ _ _ _ _ _ _ Hin Hpath).
  eapply fetch_calls_once, Hsalt.
Qed.

Lemma assoc_elem key items value :
  NoDup items.*1 -> (key, value) ∈ items -> assoc key items = Some value.
Proof.
  induction items as [|[k v] items IH]; simpl; intros Hnd Hin.
  - apply elem_of_nil in Hin. contradiction.
  - apply NoDup_cons in Hnd as [Hk Hnd].
    apply elem_of_cons in Hin as [[= <- <-] | Hin].
    + rewrite String.eqb_refl. reflexivity.
    + destruct (String.eqb k key) eqn:E; [|apply IH; assumption].
      apply String.eqb_eq in E. subst k. exfalso. apply Hk.
      apply (list_elem_of_fmap_2 fst) in Hin. exact Hin.
Qed.

Lemma assoc_absent key items : key ∉ items.*1 -> assoc key items = None.
Proof.
  induction items as [|[k v] items IH]; simpl; intros Hnot; [reflexivity|].
  apply not_elem_of_cons in Hnot as [Hne Hnot].
  destruct (String.eqb k key) eqn:E; [|apply IH, Hnot].
  apply String.eqb_eq in E. congruence.
Qed.

(** C7, as the claim states it, fails on two successful answers: a 200
    answer whose payload is a list has no [data] field, yet the resolver
    raises [AttributeError] where the claim has it return the empty
    mapping; and a 204 answer that carries a [data] field is handled as
    not found, its [data] dropped. *)
Lemma ext_pillar_success_needs_200_object :
  (exists msg,
      ext_pillar (sample_globals array_accessor) "web1" "auth" PNone "" []
      = (Raised (AttributeError msg), [EvCall "/auth"])) /\
  ext_pillar (sample_globals no_content_accessor) "web1" "auth" PNone "" []
  = (Ok empty_dict,
     [EvCall "/auth"; EvLog INFO "SSM parameter not found for: /auth"]).
Proof.
  split; [eexists|]; vm_compute; reflexivity.
Qed.

(** C7, amended: when the accessor answers with status exactly 200 and a
    payload that decodes to an object (its keys distinct), the resolver
    returns the value the object holds under [data], and the empty
    mapping when the object has no [data] key; in particular, for the
    payload [{"data": {"password": "x"}}] it returns
    [{"password": "x"}]. *)
Theorem ext_pillar_found g f minion_id pillar env root path r items :
  in_scope g env ->
  resolve_path g minion_id pillar root = Ok path ->
  salt g !! "boto_ssm.get_parameter" = Some f ->
  f path = Returns r ->
  status_code r = 200 ->
  json_body r = Returns (JObj items) ->
  NoDup items.*1 ->
  (forall value,
      ("data", value) ∈ items ->
      ext_pillar g minion_id pillar env root [] = (Ok value, [EvCall path])) /\
  ("data" ∉ items.*1 ->
   ext_pillar g minion_id pillar env root [] = (Ok empty_dict, [EvCall path])) /\
  ext_pillar (sample_globals found_accessor) "web1" "auth" PNone "" []
  = (Ok (JObj [("password", JStr "x")]), [EvCall "/auth"]).
Proof.
  intros Hin Hpath Hsalt Hf Hs Hj Hnd.
  rewrite (ext_pillar_in_scope _ _ _ _ _ _ _ Hin Hpath).
  rewrite (fetch_found _ _ _ _ _ _ Hsalt Hf Hs Hj).
  split; [|split].
  - intros value Hvalue. rewrite (assoc_elem _ _ _ Hnd Hvalue). reflexivity.
  - intros Habsent. rewrite (assoc_absent _ _ Habsent). reflexivity.
  - vm_compute. reflexivity.
Qed.

Lemma ext_pillar_found_witness :
  ext_pillar (sample_globals mixed_accessor) "web1" "auth" PNone "" []
  = (Ok (JObj [("password", JStr "x")]), [EvCall "/auth"]) /\
  ext_pillar (sample_globals dataless_accessor) "web1" "auth" PNone "" []
  = (Ok empty_dict, [EvCall "/auth"]).
Proof.
  split.
  - destruct (ext_pillar_found (sample_globals mixed_accessor) mixed_accessor
                "web1" "auth" PNone "" "/auth"
                {| status_code := 200;
                   json_body :=
                     Returns (JObj [("other", JNum 1);
                                    ("data", JObj [("password", JStr "x")])]) |}
                [("other", JNum 1); ("data", JObj [("password", JStr "x")])])
      as (Hpresent & _ & _).
    + left. reflexivity.
    + vm_compute. reflexivity.
    + vm_compute. reflexivity.
    + reflexivity.
    + reflexivity.
    + reflexivity.
    + simpl. apply NoDup_cons. split; [|apply NoDup_singleton].
      intros [=]%list_elem_of_singleton.
    + apply Hpresent. right. left.
  - destruct (ext_pillar_found (sample_globals dataless_accessor)
                dataless_accessor "web1" "auth" PNone "" "/auth"
                {| status_code := 200;
                   json_body := Returns (JObj [("other", JNum 1)]) |}
                [("other", JNum 1)])
      as (_ & Habsent & _).
    + left. reflexivity.
    + vm_compute. reflexivity.
    + vm_compute. reflexivity.
    + reflexivity.
    + reflexivity.
    + reflexivity.
    + simpl. apply NoDup_singleton.
    + apply Habsent. simpl. intros [=]%list_elem_of_singleton.
Defined.

(** C8: when the accessor answers with a status other than 200, the
    resolver returns the empty mapping and writes one log entry, at
    level INFO and none at level ERROR. *)
Theorem ext_pillar_not_found g f minion_id pillar env root path r :
  in_scope g env ->
  resolve_path g minion_id pillar root = Ok path ->
  salt g !! "boto_ssm.get_parameter" = Some f ->
  f path = Returns r ->
  status_code r <> 200 ->
  exists tr,
    ext_pillar g minion_id pillar env root [] = (Ok empty_dict, tr) /\
    logged tr = [(INFO, "SSM parameter not found for: " +:+ path)].
Proof.
  intros Hin Hpath Hsalt Hf Hs.
  rewrite (ext_pillar_in_scope _ _ _ _ _ _ _ Hin Hpath).
  rewrite (fetch_not_found _ _ _ _ _ Hsalt Hf Hs).
  eexists. split; reflexivity.
Qed.

Lemma ext_pillar_not_found_witness :
  exists tr,
    ext_pillar (sample_globals missing_accessor) "web1" "auth" (PStr "prod")
      "/{env}" [] = (Ok empty_dict, tr) /\
    logged tr = [(INFO, "SSM parameter not found for: " +:+ "/prod/auth")].
Proof.
  apply (ext_pillar_not_found (sample_globals missing_accessor) missing_accessor
           "web1" "auth" (PStr "prod") "/{env}" "/prod/auth"
           {| status_code := 404; json_body := Returns (JObj []) |}).
  - right. vm_compute. reflexivity.
  - vm_compute. reflexivity.
  - vm_compute. reflexivity.
  - reflexivity.
  - simpl. lia.
Defined.

(** C9: when the accessor call of line 114 raises [KeyError], the
    resolver catches it, writes one log entry, at level ERROR, and
    returns the empty mapping. *)
Theorem ext_pillar_lookup_failure g minion_id pillar env root path :
  in_scope g env ->
  resolve_path g minion_id pillar root = Ok path ->
  lookup_fails g path ->
  exists tr,
    ext_pillar g minion_id pillar env root [] = (Ok empty_dict, tr) /\
    logged tr = [(ERROR, "No such path in SSM: " +:+ path)].
Proof.
  intros Hin Hpath Hfail.
  rewrite (ext_pillar_in_scope _ _ _ _ _ _ _ Hin Hpath).
  unfold lookup_fails in Hfail.
  destruct (salt g !! "boto_ssm.get_parameter") as [f|] eqn:Hsalt.
  - destruct Hfail as [key Hf].
    rewrite (fetch_key_error _ _ _ _ _ Hsalt Hf). eexists. split; reflexivity.
  - rewrite (fetch_unregistered _ _ _ Hsalt). eexists. split; reflexivity.
Qed.

Lemma ext_pillar_lookup_failure_witness :
  exists tr,
    ext_pillar (sample_globals key_error_accessor) "web1" "auth" PNone "" []
    = (Ok empty_dict, tr) /\
    logged tr = [(ERROR, "No such path in SSM: " +:+ "/auth")].
Proof.
  apply (ext_pillar_lookup_failure (sample_globals key_error_accessor)
           "web1" "auth" PNone "" "/auth").
  - left. reflexivity.
  - vm_compute. reflexivity.
  - vm_compute. exists "/auth". reflexivity.
Defined.

(** C10: with [env] the empty string the scope check of lines 106-108 is
    skipped, as it is with [env] unset: whatever the active environment,
    the resolver goes on to lines 109-122, builds the path and calls the
    accessor. *)
Theorem ext_pillar_empty_env g minion_id pillar root :
  ext_pillar g minion_id pillar (PStr "") root
  = ext_pillar g minion_id pillar PNone root /\
  ext_pillar g minion_id pillar (PStr "") root
  = (path ← lift (resolve_path g minion_id pillar root); fetch g path) /\
  forall f path,
    resolve_path g minion_id pillar root = Ok path ->
    salt g !! "boto_ssm.get_parameter" = Some f ->
    calls (ext_pillar g minion_id pillar (PStr "") root []).2 = [path].
Proof.
  split; [reflexivity|]. split; [reflexivity|].
  intros f path Hpath Hsalt.
  eapply ext_pillar_calls_once; [left; reflexivity | exact Hpath | exact Hsalt].
Qed.

Lemma ext_pillar_empty_env_witness :
  active_env (sample_globals found_accessor) = PStr "prod" /\
  ext_pillar (sample_globals found_accessor) "web1" "auth" (PStr "") "/{env}" []
  = (Ok (JObj [("password", JStr "x")]), [EvCall "/prod/auth"]) /\
  calls (ext_pillar (sample_globals found_accessor) "web1" "auth" (PStr "")
           "/{env}" []).2 = ["/prod/auth"].
Proof.
  split; [vm_compute; reflexivity|]. split; [vm_compute; reflexivity|].
  apply (proj2 (proj2 (ext_pillar_empty_env (sample_globals found_accessor)
                         "web1" "auth" "/{env}")) found_accessor "/prod/auth").
  - vm_compute. reflexivity.
  - vm_compute. reflexivity.
Defined.

(** ** Further properties of the path construction (line 109) *)

Lemma mem_app c a b :
  PyStr.mem c (a +:+ b) = PyStr.mem c a || PyStr.mem c b.
Proof.
  induction a as [|x a IH]; simpl; [reflexivity|].
  rewrite IH. apply orb_assoc.
Qed.

(** Splitting at a separator splits both sides. *)
Lemma split_app_at sep a b :
  PyStr.split sep (a +:+ String sep b) = PyStr.split sep a ++ PyStr.split sep b.
Proof.
  induction a as [|c a IH]; simpl.
  - rewrite Ascii.eqb_refl. reflexivity.
  - destruct (Ascii.eqb c sep); [rewrite IH; reflexivity|].
    rewrite IH. pose proof (split_not_nil sep a) as Hne.
    destruct (PyStr.split sep a); [congruence | reflexivity].
Qed.

Lemma keep_truthy_app l1 l2 :
  PyStr.keep_truthy (l1 ++ l2) = PyStr.keep_truthy l1 ++ PyStr.keep_truthy l2.
Proof.
  induction l1 as [|x l1 IH]; simpl; [reflexivity|].
  destruct (PyStr.nonempty x); simpl; rewrite IH; reflexivity.
Qed.

Lemma keep_truthy_id l :
  Forall (fun s : string => s <> "") l -> PyStr.keep_truthy l = l.
Proof.
  induction 1 as [|x l Hx Hl IH]; simpl; [reflexivity|].
  apply nonempty_true in Hx. rewrite Hx, IH. reflexivity.
Qed.

Lemma segments_app root pillar :
  segments root pillar
  = PyStr.keep_truthy (PyStr.split "/" root)
      ++ PyStr.keep_truthy (PyStr.split "/" pillar).
Proof. apply keep_truthy_app. Qed.

(** X1: the path depends on [root] and [pillar] only through their
    concatenation with a [/] between them: the resolver cannot tell a
    segment of [root] from a segment of [pillar]. *)
Theorem join_path_concat root pillar :
  join_path root pillar = join_path (root +:+ "/" +:+ pillar) "" /\
  join_path root pillar = join_path "" (root +:+ "/" +:+ pillar).
Proof.
  rewrite !join_path_segments, !segments_app.
  change (root +:+ "/" +:+ pillar) with (root +:+ String "/" pillar).
  rewrite split_app_at, keep_truthy_app. simpl.
  rewrite app_nil_r. split; reflexivity.
Qed.

(** Splitting a built path gives back the kept segments after one empty
    piece. *)
Lemma split_join_path root pillar :
  segments root pillar <> [] ->
  PyStr.split "/" (join_path root pillar) = "" :: segments root pillar.
Proof.
  intros Hne. rewrite join_path_segments.
  apply split_join; [discriminate|].
  constructor; [reflexivity|].
  eapply Forall_impl; [apply segments_clean|]. intros ? [_ ?]; assumption.
Qed.

Lemma segments_nonempty root pillar :
  Forall (fun s : string => s <> "") (segments root pillar).
Proof.
  eapply Forall_impl; [apply segments_clean|]. intros ? [? _]; assumption.
Qed.

(** X2: building a path from an already built path changes nothing. *)
Theorem join_path_idempotent root pillar :
  join_path (join_path root pillar) "" = join_path root pillar.
Proof.
  pose proof (segments_nonempty root pillar) as Hne.
  pose proof (join_path_segments root pillar) as Hpath.
  rewrite (join_path_segments (join_path root pillar) ""), segments_app.
  destruct (segments root pillar) as [|s segs] eqn:E.
  - rewrite Hpath. reflexivity.
  - rewrite split_join_path by (rewrite E; discriminate).
    rewrite E, Hpath.
    change (PyStr.keep_truthy ("" :: s :: segs))
      with (PyStr.keep_truthy (s :: segs)).
    rewrite (keep_truthy_id _ Hne). simpl PyStr.keep_truthy at 1.
    rewrite app_nil_r. reflexivity.
Qed.

(** X3: a slash added before or after [root] or [pillar], or doubled
    inside [root], does not change the path. *)
Theorem join_path_ignores_slashes root pillar :
  join_path (root +:+ "/") pillar = join_path root pillar /\
  join_path ("/" +:+ root) pillar = join_path root pillar /\
  join_path root (pillar +:+ "/") = join_path root pillar /\
  join_path root ("/" +:+ pillar) = join_path root pillar /\
  forall a b,
    join_path (a +:+ "//" +:+ b) pillar = join_path (a +:+ "/" +:+ b) pillar.
Proof.
  rewrite !join_path_segments, !segments_app.
  change (root +:+ "/") with (root +:+ String "/" "").
  change (pillar +:+ "/") with (pillar +:+ String "/" "").
  rewrite !split_app_at, !keep_truthy_app. simpl. rewrite !app_nil_r.
  repeat split; try reflexivity.
  intros a b. rewrite !join_path_segments, !segments_app.
  change (a +:+ "//" +:+ b) with (a +:+ String "/" (String "/" b)).
  change (a +:+ "/" +:+ b) with (a +:+ String "/" b).
  rewrite !split_app_at, !keep_truthy_app. simpl. reflexivity.
Qed.

(** X4: joining the pieces of a split with the separator gives the
    string back. *)
Theorem join_split_roundtrip sep s :
  PyStr.join (String sep "") (PyStr.split sep s) = s.
Proof.
  induction s as [|c s IH]; [reflexivity|].
  pose proof (split_not_nil sep s) as Hne.
  simpl PyStr.split. destruct (Ascii.eqb c sep) eqn:E.
  - apply Ascii.eqb_eq in E. subst c.
    destruct (PyStr.split sep s) as [|w ws]; [congruence|].
    change (PyStr.join (String sep "") ("" :: w :: ws))
      with (String sep (PyStr.join (String sep "") (w :: ws))).
    rewrite IH. reflexivity.
  - destruct (PyStr.split sep s) as [|w ws]; [congruence|].
    destruct ws as [|w' ws'].
    + simpl in *. rewrite IH. reflexivity.
    + change (PyStr.join (String sep "") (String c w :: w' :: ws'))
        with (String c (PyStr.join (String sep "") (w :: w' :: ws'))).
      rewrite IH. reflexivity.
Qed.

(** ** Further properties of the substitution (lines 110-111) *)

Lemma brace_free_mem s :
  brace_free s = true <-> PyStr.mem "{" s = false /\ PyStr.mem "}" s = false.
Proof.
  unfold brace_free. rewrite andb_true_iff, !negb_true_iff. reflexivity.
Qed.

Lemma brace_free_app a b :
  brace_free (a +:+ b) = brace_free a && brace_free b.
Proof.
  unfold brace_free. rewrite !mem_app.
  destruct (PyStr.mem "{" a), (PyStr.mem "}" a), (PyStr.mem "{" b); reflexivity.
Qed.

Lemma obind_ok_nil (o : outcome string) :
  obind o (fun out => Ok ("" +:+ out)) = o.
Proof. destruct o; reflexivity. Qed.

Lemma emit_obind c (o : outcome string) a' :
  PyFormat.emit c (obind o (fun out => Ok (a' +:+ out)))
  = obind o (fun out => Ok (String c a' +:+ out)).
Proof. destruct o; reflexivity. Qed.

(** Once a prefix has been formatted, the scanner is back in literal
    text: the suffix is formatted on its own. *)
Lemma format_from_app kw n :
  forall a, (String.length a <= n)%nat ->
  forall st a' b,
    PyFormat.format_from kw st a = Ok a' ->
    PyFormat.format_from kw st (a +:+ b)
    = obind (PyFormat.format_from kw PyFormat.InText b)
        (fun out => Ok (a' +:+ out)).
Proof.
  induction n as [|n IH]; intros a Hlen st a' b Ha.
  - destruct a; [|simpl in Hlen; lia].
    destruct st; simpl in Ha; try discriminate.
    injection Ha as <-. rewrite append_nil_l, obind_ok_nil. reflexivity.
  - destruct a as [|c a].
    { destruct st; simpl in Ha; try discriminate.
      injection Ha as <-. rewrite append_nil_l, obind_ok_nil. reflexivity. }
    simpl in Hlen. assert (Hlen' : (String.length a <= n)%nat) by lia.
    rewrite append_cons.
    destruct st as [|name|name]; simpl in Ha |- *.
    + destruct (Ascii.eqb c "{").
      { destruct a as [|c' a]; [discriminate|]. simpl in Hlen'.
        rewrite append_cons.
        destruct (Ascii.eqb c' "{").
        - destruct (PyFormat.format_from kw PyFormat.InText a) as [o| |] eqn:Eo;
            try discriminate.
          injection Ha as <-.
          rewrite (IH a ltac:(lia) _ _ b Eo). apply emit_obind.
        - rewrite <- append_cons.
          apply (IH (String c' a) ltac:(simpl; lia) _ _ b Ha). }
      destruct (Ascii.eqb c "}").
      { destruct a as [|c' a]; [discriminate|]. simpl in Hlen'.
        rewrite append_cons.
        destruct (Ascii.eqb c' "}"); [|discriminate].
        destruct (PyFormat.format_from kw PyFormat.InText a) as [o| |] eqn:Eo;
          try discriminate.
        injection Ha as <-.
        rewrite (IH a ltac:(lia) _ _ b Eo). apply emit_obind. }
      destruct (PyFormat.format_from kw PyFormat.InText a) as [o| |] eqn:Eo;
        try discriminate.
      injection Ha as <-.
      rewrite (IH a Hlen' _ _ b Eo). apply emit_obind.
    + destruct (Ascii.eqb c "{"); [discriminate|].
      destruct (Ascii.eqb c "["); [apply (IH a Hlen' _ _ b Ha)|].
      destruct (Ascii.eqb c "}").
      { destruct (PyFormat.render_field kw name) as [v| |]; try discriminate.
        simpl in Ha |- *.
        destruct (PyFormat.format_from kw PyFormat.InText a) as [o| |] eqn:Eo;
          try discriminate.
        injection Ha as <-.
        rewrite (IH a Hlen' _ _ b Eo).
        destruct (PyFormat.format_from kw PyFormat.InText b); simpl;
          [rewrite append_assoc|..]; reflexivity. }
      destruct (Ascii.eqb c ":" || Ascii.eqb c "!"); [discriminate|].
      apply (IH a Hlen' _ _ b Ha).
    + destruct (Ascii.eqb c "]"); apply (IH a Hlen' _ _ b Ha).
Qed.

Lemma format_app kw a a' b :
  PyFormat.format a kw = Ok a' ->
  PyFormat.format (a +:+ b) kw
  = obind (PyFormat.format b kw) (fun out => Ok (a' +:+ out)).
Proof.
  intros Ha. unfold PyFormat.format in *.
  eapply format_from_app; [reflexivity | exact Ha].
Qed.

Lemma format_brace_free kw s : brace_free s = true -> PyFormat.format s kw = Ok s.
Proof. intros H. apply brace_free_mem in H as [Ho Hc]. apply format_plain; assumption. Qed.

(** A field [{name}] at the head of the text, for the two names the
    module uses. *)
Lemma format_env_field kw s :
  PyFormat.format ("{env}" +:+ s) kw
  = obind (PyFormat.render_field kw "env")
      (fun v => obind (PyFormat.format s kw) (fun out => Ok (v +:+ out))).
Proof. reflexivity. Qed.

Lemma format_minion_field kw s :
  PyFormat.format ("{minion}" +:+ s) kw
  = obind (PyFormat.render_field kw "minion")
      (fun v => obind (PyFormat.format s kw) (fun out => Ok (v +:+ out))).
Proof. reflexivity. Qed.

Lemma format_escaped_minion kw s :
  PyFormat.format ("{{minion}}" +:+ s) kw
  = obind (PyFormat.format s kw) (fun out => Ok ("{minion}" +:+ out)).
Proof.
  unfold PyFormat.format. simpl. rewrite append_nil_l. unfold PyFormat.emit.
  destruct (PyFormat.format_from kw PyFormat.InText s); reflexivity.
Qed.

Lemma render_env (v : pyval) :
  PyFormat.render_field {[ "env" := v ]} "env" = Ok (py_str v).
Proof. reflexivity. Qed.

Lemma render_minion_first (v : pyval) :
  PyFormat.render_field {[ "env" := v ]} "minion" = Raised (KeyError "minion").
Proof. reflexivity. Qed.

Lemma render_minion (m : string) :
  PyFormat.render_field {[ "minion" := PStr m ]} "minion" = Ok m.
Proof. reflexivity. Qed.

Lemma format_from_text_cons kw c rest :
  PyFormat.format_from kw PyFormat.InText (String c rest)
  = if Ascii.eqb c "{" then
      match rest with
      | EmptyString =>
          Raised (ValueError "Single '{' encountered in format string")
      | String c' rest' =>
          if Ascii.eqb c' "{"
          then PyFormat.emit "{" (PyFormat.format_from kw PyFormat.InText rest')
          else PyFormat.format_from kw (PyFormat.InField EmptyString) rest
      end
    else if Ascii.eqb c "}" then
      match rest with
      | EmptyString =>
          Raised (ValueError "Single '}' encountered in format string")
      | String c' rest' =>
          if Ascii.eqb c' "}"
          then PyFormat.emit "}" (PyFormat.format_from kw PyFormat.InText rest')
          else Raised (ValueError "Single '}' encountered in format string")
      end
    else PyFormat.emit c (PyFormat.format_from kw PyFormat.InText rest).
Proof. reflexivity. Qed.

(** Doubling the braces protects a text from one pass. *)
Lemma format_escape kw s : PyFormat.format (escape s) kw = Ok s.
Proof.
  unfold PyFormat.format.
  induction s as [|c s IH]; [reflexivity|].
  change (escape (String c s))
    with (if Ascii.eqb c "{" || Ascii.eqb c "}"
          then String c (String c (escape s)) else String c (escape s)).
  destruct (Ascii.eqb c "{") eqn:Eo.
  - rewrite orb_true_l, format_from_text_cons, Eo, IH.
    apply Ascii.eqb_eq in Eo. subst c. reflexivity.
  - destruct (Ascii.eqb c "}") eqn:Ec.
    + rewrite orb_true_r, format_from_text_cons, Eo, Ec, IH.
      apply Ascii.eqb_eq in Ec. subst c. reflexivity.
    + rewrite orb_false_l, format_from_text_cons, Eo, Ec, IH. reflexivity.
Qed.

Lemma split_mem_free c sep s :
  PyStr.mem c s = false ->
  Forall (fun w => PyStr.mem c w = false) (PyStr.split sep s).
Proof.
  induction s as [|x s IH]; simpl; intros H.
  - repeat constructor.
  - apply orb_false_iff in H as [Hx Hs]. specialize (IH Hs).
    destruct (Ascii.eqb x sep).
    + constructor; [reflexivity | exact IH].
    + destruct (PyStr.split sep s) as [|w ws]; inversion IH; subst.
      * repeat constructor. simpl. rewrite Hx. reflexivity.
      * constructor; [|assumption]. simpl. rewrite Hx. assumption.
Qed.

Lemma keep_truthy_keeps (P : string -> Prop) l :
  Forall P l -> Forall P (PyStr.keep_truthy l).
Proof.
  induction 1 as [|x l Hx Hl IH]; simpl; [constructor|].
  destruct (PyStr.nonempty x); [constructor|]; assumption.
Qed.

Lemma join_mem_free c sep l :
  PyStr.mem c sep = false ->
  Forall (fun w => PyStr.mem c w = false) l ->
  PyStr.mem c (PyStr.join sep l) = false.
Proof.
  intros Hsep. induction 1 as [|w l Hw Hl IH]; [reflexivity|].
  destruct l as [|w' l']; [exact Hw|].
  change (PyStr.join sep (w :: w' :: l'))
    with (w +:+ sep +:+ PyStr.join sep (w' :: l')).
  rewrite !mem_app, Hw, Hsep, IH. reflexivity.
Qed.

Lemma join_path_mem_free c root pillar :
  Ascii.eqb "/" c = false ->
  PyStr.mem c root = false -> PyStr.mem c pillar = false ->
  PyStr.mem c (join_path root pillar) = false.
Proof.
  intros Hc Hr Hp. rewrite join_path_segments.
  apply join_mem_free.
  { change (PyStr.mem c "/") with (Ascii.eqb "/" c || false).
    rewrite Hc. reflexivity. }
  constructor; [reflexivity|].
  apply keep_truthy_keeps, Forall_app; split; apply split_mem_free; assumption.
Qed.

Lemma join_path_brace_free root pillar :
  brace_free root = true -> brace_free pillar = true ->
  brace_free (join_path root pillar) = true.
Proof.
  intros [Hro Hrc]%brace_free_mem [Hpo Hpc]%brace_free_mem.
  apply brace_free_mem; split; apply join_path_mem_free; auto.
Qed.

(** The first pass on a text whose only field is [{env}]. *)
Lemma first_pass_env (v : pyval) pre post :
  brace_free pre = true -> brace_free post = true ->
  PyFormat.format (pre +:+ "{env}" +:+ post) {[ "env" := v ]}
  = Ok (pre +:+ py_str v +:+ post).
Proof.
  intros Hpre Hpost.
  rewrite (format_app _ _ _ _ (format_brace_free _ _ Hpre)).
  rewrite format_env_field, render_env, (format_brace_free _ _ Hpost).
  reflexivity.
Qed.

(** X5: when neither [root] nor [pillar] holds a brace, both passes
    leave the joined path as it is, and a loaded accessor is called
    exactly once, with that path. *)
Theorem resolve_path_without_braces g minion_id pillar root :
  brace_free root = true ->
  brace_free pillar = true ->
  resolve_path g minion_id pillar root = Ok (join_path root pillar) /\
  forall env f,
    in_scope g env ->
    salt g !! "boto_ssm.get_parameter" = Some f ->
    calls (ext_pillar g minion_id pillar env root []).2 = [join_path root pillar].
Proof.
  intros Hr Hp.
  pose proof (join_path_brace_free _ _ Hr Hp) as [Ho Hc]%brace_free_mem.
  pose proof (resolve_path_plain g minion_id pillar root Ho Hc) as Hpath.
  split; [exact Hpath|].
  intros env f Hin Hsalt.
  rewrite (ext_pillar_in_scope _ _ _ _ _ _ _ Hin Hpath).
  eapply fetch_calls_once, Hsalt.
Qed.

Lemma resolve_path_without_braces_witness :
  resolve_path (sample_globals found_accessor) "web1" "auth/db" "/srv/salt/"
  = Ok (join_path "/srv/salt/" "auth/db") /\
  forall env f,
    in_scope (sample_globals found_accessor) env ->
    salt (sample_globals found_accessor) !! "boto_ssm.get_parameter" = Some f ->
    calls (ext_pillar (sample_globals found_accessor) "web1" "auth/db" env
             "/srv/salt/" []).2 = [join_path "/srv/salt/" "auth/db"].
Proof.
  apply (resolve_path_without_braces (sample_globals found_accessor)
           "web1" "auth/db" "/srv/salt/"); reflexivity.
Defined.

(** X6: when the joined path is brace-free text around one [{env}]
    field, the first pass puts [str()] of the active environment in its
    place and the second pass scans the result, the inserted value
    included; when that value holds no brace, the resolved path is the
    text with the value in place of the field. *)
Theorem resolve_path_env_placeholder g minion_id pillar root pre post :
  join_path root pillar = pre +:+ "{env}" +:+ post ->
  brace_free pre = true ->
  brace_free post = true ->
  resolve_path g minion_id pillar root
  = PyFormat.format (pre +:+ py_str (active_env g) +:+ post)
      {[ "minion" := PStr minion_id ]} /\
  (brace_free (py_str (active_env g)) = true ->
   resolve_path g minion_id pillar root
   = Ok (pre +:+ py_str (active_env g) +:+ post)).
Proof.
  intros Hjoin Hpre Hpost.
  assert (E : resolve_path g minion_id pillar root
              = PyFormat.format (pre +:+ py_str (active_env g) +:+ post)
                  {[ "minion" := PStr minion_id ]}).
  { unfold resolve_path. rewrite Hjoin, (first_pass_env _ _ _ Hpre Hpost).
    reflexivity. }
  split; [exact E|].
  intros Hval. rewrite E. apply format_brace_free.
  rewrite !brace_free_app, Hpre, Hval, Hpost. reflexivity.
Qed.

Lemma resolve_path_env_placeholder_witness :
  resolve_path (sample_globals found_accessor) "web1" "auth" "/{env}/"
  = PyFormat.format
      ("/" +:+ py_str (active_env (sample_globals found_accessor)) +:+ "/auth")
      {[ "minion" := PStr "web1" ]} /\
  (brace_free (py_str (active_env (sample_globals found_accessor))) = true ->
   resolve_path (sample_globals found_accessor) "web1" "auth" "/{env}/"
   = Ok ("/" +:+ py_str (active_env (sample_globals found_accessor))
           +:+ "/auth")).
Proof.
  apply (resolve_path_env_placeholder (sample_globals found_accessor)
           "web1" "auth" "/{env}/" "/" "/auth"); reflexivity.
Defined.

(** X7: a joined path that writes the environment as [{env}] and the
    minion with doubled braces, [{{minion}}], resolves to the text with
    both values in place, whatever characters the minion id holds. *)
Theorem resolve_path_escaped_minion_placeholder
  g minion_id pillar root pre mid post :
  join_path root pillar = pre +:+ "{env}" +:+ mid +:+ "{{minion}}" +:+ post ->
  brace_free pre = true ->
  brace_free mid = true ->
  brace_free post = true ->
  brace_free (py_str (active_env g)) = true ->
  resolve_path g minion_id pillar root
  = Ok (pre +:+ py_str (active_env g) +:+ mid +:+ minion_id +:+ post).
Proof.
  intros Hjoin Hpre Hmid Hpost Hval. unfold resolve_path. rewrite Hjoin.
  rewrite (format_app _ _ _ _ (format_brace_free _ _ Hpre)).
  rewrite format_env_field, render_env.
  rewrite (format_app _ _ _ _ (format_brace_free _ _ Hmid)).
  rewrite format_escaped_minion, (format_brace_free _ _ Hpost).
  cbn [obind].
  assert (Hhead : brace_free (pre +:+ py_str (active_env g) +:+ mid) = true).
  { rewrite !brace_free_app, Hpre, Hval, Hmid. reflexivity. }
  replace (pre +:+ py_str (active_env g) +:+ mid +:+ "{minion}" +:+ post)
    with ((pre +:+ py_str (active_env g) +:+ mid) +:+ "{minion}" +:+ post)
    by (rewrite !append_assoc; reflexivity).
  rewrite (format_app _ _ _ _ (format_brace_free _ _ Hhead)).
  rewrite format_minion_field, render_minion, (format_brace_free _ _ Hpost).
  cbn [obind]. rewrite !append_assoc. reflexivity.
Qed.

Lemma resolve_path_escaped_minion_placeholder_witness :
  resolve_path (sample_globals found_accessor) "web{1}" "auth"
    "/{env}/{{minion}}"
  = Ok ("/" +:+ py_str (active_env (sample_globals found_accessor))
          +:+ "/" +:+ "web{1}" +:+ "/auth").
Proof.
  apply (resolve_path_escaped_minion_placeholder
           (sample_globals found_accessor) "web{1}" "auth" "/{env}/{{minion}}"
           "/" "/" "/auth"); reflexivity.
Defined.

(** X8: when the joined path holds an undoubled [{minion}] field after a
    text that the first pass accepts, the first pass raises
    [KeyError('minion')]: no path is resolved, and a run that passes the
    scope check raises it to the caller without a remote call or a log
    entry. *)
Theorem resolve_path_minion_placeholder_raises
  g minion_id pillar root head head' tail :
  join_path root pillar = head +:+ "{minion}" +:+ tail ->
  PyFormat.format head {[ "env" := active_env g ]} = Ok head' ->
  resolve_path g minion_id pillar root = Raised (KeyError "minion") /\
  forall env,
    in_scope g env ->
    ext_pillar g minion_id pillar env root [] = (Raised (KeyError "minion"), []).
Proof.
  intros Hjoin Hhead.
  assert (E : resolve_path g minion_id pillar root = Raised (KeyError "minion")).
  { unfold resolve_path. rewrite Hjoin, (format_app _ _ _ _ Hhead).
    rewrite format_minion_field, render_minion_first. reflexivity. }
  split; [exact E|].
  intros env Hin. apply ext_pillar_substitution_raises; assumption.
Qed.

Lemma resolve_path_minion_placeholder_raises_witness :
  resolve_path (sample_globals found_accessor) "web1" "auth" "/{env}/{minion}"
  = Raised (KeyError "minion") /\
  forall env,
    in_scope (sample_globals found_accessor) env ->
    ext_pillar (sample_globals found_accessor) "web1" "auth" env
      "/{env}/{minion}" [] = (Raised (KeyError "minion"), []).
Proof.
  apply (resolve_path_minion_placeholder_raises (sample_globals found_accessor)
           "web1" "auth" "/{env}/{minion}" "/{env}/" "/prod/" "/auth").
  - reflexivity.
  - vm_compute. reflexivity.
Defined.

(** X9: a text reaches the accessor unchanged when the joined path
    writes each of its braces four times: each pass halves them. *)
Theorem resolve_path_quadrupled_braces g minion_id pillar root text :
  join_path root pillar = escape (escape text) ->
  resolve_path g minion_id pillar root = Ok text.
Proof.
  intros Hjoin. unfold resolve_path.
  rewrite Hjoin, format_escape. simpl. apply format_escape.
Qed.

Lemma resolve_path_quadrupled_braces_witness :
  resolve_path (sample_globals found_accessor) "web1" "" "/{{{{x}}}}"
  = Ok "/{x}".
Proof.
  apply (resolve_path_quadrupled_braces (sample_globals found_accessor)
           "web1" "" "/{{{{x}}}}" "/{x}").
  reflexivity.
Defined.

(** X10: with neither [pillarenv] nor [saltenv] in the options, an
    [{env}] field is replaced by the text [None]. *)
Theorem resolve_path_env_unset g minion_id pillar root pre post :
  opts g !! "pillarenv" = None ->
  opts g !! "saltenv" = None ->
  join_path root pillar = pre +:+ "{env}" +:+ post ->
  brace_free pre = true ->
  brace_free post = true ->
  resolve_path g minion_id pillar root = Ok (pre +:+ "None" +:+ post).
Proof.
  intros Hp Hs Hjoin Hpre Hpost.
  assert (Henv : active_env g = PNone).
  { unfold active_env, opts_get. rewrite Hp, Hs. reflexivity. }
  unfold resolve_path. rewrite Hjoin, Henv, (first_pass_env _ _ _ Hpre Hpost).
  simpl. apply format_brace_free.
  rewrite !brace_free_app, Hpre, Hpost. reflexivity.
Qed.

Lemma resolve_path_env_unset_witness :
  resolve_path (bare_globals found_accessor) "web1" "auth" "/{env}"
  = Ok ("/" +:+ "None" +:+ "/auth").
Proof.
  apply (resolve_path_env_unset (bare_globals found_accessor)
           "web1" "auth" "/{env}" "/" "/auth"); reflexivity.
Defined.

(** ** Further properties of the scope check (lines 105-108) *)

(** X11: an [env] that names the active environment, like an unset or
    empty one, leaves the run as it is without [env]. *)
Theorem ext_pillar_in_scope_as_unset g minion_id pillar env root tr :
  in_scope g env ->
  ext_pillar g minion_id pillar env root tr
  = ext_pillar g minion_id pillar PNone root tr.
Proof.
  intros Hin. unfold ext_pillar. cbv zeta.
  rewrite (in_scope_check _ _ Hin). reflexivity.
Qed.

Lemma ext_pillar_in_scope_as_unset_witness :
  ext_pillar (sample_globals found_accessor) "web1" "auth" (PStr "prod") "" []
  = ext_pillar (sample_globals found_accessor) "web1" "auth" PNone "" [].
Proof.
  apply (ext_pillar_in_scope_as_unset (sample_globals found_accessor)
           "web1" "auth" (PStr "prod") "" []).
  right. vm_compute. reflexivity.
Defined.

(** X12: a non-empty [pillarenv] is the active environment whatever
    [saltenv] is: a resolver scoped to another environment returns the
    empty mapping without a remote call, even one scoped to the
    [saltenv]. *)
Theorem pillarenv_shadows_saltenv g minion_id pillar root p e :
  opts g !! "pillarenv" = Some (PStr p) ->
  p <> "" ->
  e <> "" ->
  e <> p ->
  active_env g = PStr p /\
  ext_pillar g minion_id pillar (PStr e) root [] = (Ok empty_dict, []).
Proof.
  intros Hp Hpne Hene Hep.
  assert (Henv : active_env g = PStr p).
  { unfold active_env, opts_get, py_or. rewrite Hp. simpl.
    apply String.eqb_neq in Hpne. rewrite Hpne. reflexivity. }
  split; [exact Henv|].
  apply ext_pillar_scoped_out. split.
  - simpl. apply negb_true_iff, String.eqb_neq, Hene.
  - rewrite Henv. congruence.
Qed.

Lemma pillarenv_shadows_saltenv_witness :
  active_env {| opts := {[ "pillarenv" := PStr "prod"; "saltenv" := PStr "dev" ]};
                salt := {[ "boto_ssm.get_parameter" := found_accessor ]} |}
  = PStr "prod" /\
  ext_pillar {| opts := {[ "pillarenv" := PStr "prod"; "saltenv" := PStr "dev" ]};
                salt := {[ "boto_ssm.get_parameter" := found_accessor ]} |}
    "web1" "auth" (PStr "dev") "" [] = (Ok empty_dict, []).
Proof.
  apply (pillarenv_shadows_saltenv
           {| opts := {[ "pillarenv" := PStr "prod"; "saltenv" := PStr "dev" ]};
              salt := {[ "boto_ssm.get_parameter" := found_accessor ]} |}
           "web1" "auth" "" "prod" "dev").
  - vm_compute. reflexivity.
  - discriminate.
  - discriminate.
  - discriminate.
Defined.

(** X13: a [pillarenv] that is missing, [None] or empty hands the
    choice to [saltenv]: the active environment is then whatever
    [saltenv] holds, and a resolver scoped to that value passes the scope
    check. *)
Theorem empty_pillarenv_falls_back g minion_id pillar root e tr :
  truthy (opts_get g "pillarenv") = false ->
  opts g !! "saltenv" = Some (PStr e) ->
  active_env g = PStr e /\
  ext_pillar g minion_id pillar (PStr e) root tr
  = ext_pillar g minion_id pillar PNone root tr.
Proof.
  intros Hp Hs.
  assert (Henv : active_env g = PStr e).
  { unfold active_env, py_or. rewrite Hp. unfold opts_get. rewrite Hs.
    reflexivity. }
  split; [exact Henv|].
  unfold ext_pillar. cbv zeta.
  rewrite (in_scope_check g (PStr e)); [reflexivity|].
  right. symmetry. exact Henv.
Qed.

Lemma empty_pillarenv_falls_back_witness :
  active_env (fallback_globals found_accessor) = PStr "dev" /\
  ext_pillar (fallback_globals found_accessor) "web1" "auth" (PStr "dev") "" []
  = ext_pillar (fallback_globals found_accessor) "web1" "auth" PNone "" [].
Proof.
  apply (empty_pillarenv_falls_back (fallback_globals found_accessor)
           "web1" "auth" "" "dev" []).
  - vm_compute. reflexivity.
  - vm_compute. reflexivity.
Defined.

(** X14: with neither [pillarenv] nor [saltenv] in the options, every
    resolver that has a non-empty [env] returns the empty mapping without
    a remote call. *)
Theorem ext_pillar_scoped_without_options g minion_id pillar root e :
  opts g !! "pillarenv" = None ->
  opts g !! "saltenv" = None ->
  e <> "" ->
  ext_pillar g minion_id pillar (PStr e) root [] = (Ok empty_dict, []).
Proof.
  intros Hp Hs Hene.
  apply ext_pillar_scoped_out. split.
  - simpl. apply negb_true_iff, String.eqb_neq, Hene.
  - unfold active_env, opts_get. rewrite Hp, Hs. discriminate.
Qed.

Lemma ext_pillar_scoped_without_options_witness :
  ext_pillar (bare_globals found_accessor) "web1" "auth" (PStr "prod") "" []
  = (Ok empty_dict, []).
Proof.
  apply (ext_pillar_scoped_without_options (bare_globals found_accessor)
           "web1" "auth" "" "prod").
  - vm_compute. reflexivity.
  - vm_compute. reflexivity.
  - discriminate.
Defined.

(** ** Further properties of the remote call and its handling
    (lines 113-122) *)

(** Every way lines 113-122 can end. *)
Lemma fetch_shape g path :
  (exists value, fetch g path [] = (Ok value, [EvCall path])) \/
  fetch g path []
  = (Ok empty_dict,
     [EvCall path; EvLog INFO ("SSM parameter not found for: " +:+ path)]) \/
  fetch g path []
  = (Ok empty_dict, [EvCall path; EvLog ERROR ("No such path in SSM: " +:+ path)]) \/
  fetch g path []
  = (Ok empty_dict, [EvLog ERROR ("No such path in SSM: " +:+ path)]) \/
  (exists e, (forall key, e <> KeyError key) /\
             fetch g path [] = (Raised e, [EvCall path])).
Proof.
  destruct (salt g !! "boto_ssm.get_parameter") as [f|] eqn:Hsalt.
  2: { right; right; right; left. exact (fetch_unregistered _ _ [] Hsalt). }
  destruct (f path) as [r | e] eqn:Hf.
  - destruct (decide (status_code r = 200)) as [Hs | Hs].
    2: { right; left. exact (fetch_not_found _ _ _ _ [] Hsalt Hf Hs). }
    unfold_run. rewrite Hsalt, Hf. simpl. rewrite Hs. simpl.
    destruct (json_body r) as [payload | e]; simpl.
    + destruct payload; simpl;
        try (right; right; right; right; eexists; split;
             [|reflexivity]; intros; discriminate).
      left. destruct (assoc "data" items); eexists; reflexivity.
    + destruct e;
        try (right; right; right; right; eexists; split;
             [|reflexivity]; intros; discriminate).
      right; right; left. reflexivity.
  - assert (Hcase : (exists key, e = KeyError key) \/ forall key, e <> KeyError key)
      by (destruct e; [left; eexists; reflexivity | right; intros; discriminate..]).
    destruct Hcase as [[key ->] | He].
    + right; right; left. exact (fetch_key_error _ _ _ _ [] Hsalt Hf).
    + right; right; right; right. exists e.
      split; [exact He|]. exact (fetch_other_error _ _ _ _ [] Hsalt Hf He).
Qed.

(** Every way the resolver can end before line 113, or else it is
    lines 113-122 on the resolved path. *)
Lemma ext_pillar_shape g minion_id pillar env root :
  (scoped_out g env /\
   ext_pillar g minion_id pillar env root [] = (Ok empty_dict, [])) \/
  (in_scope g env /\
   exists e, resolve_path g minion_id pillar root = Raised e /\
             ext_pillar g minion_id pillar env root [] = (Raised e, [])) \/
  (in_scope g env /\
   resolve_path g minion_id pillar root = Unmodelled /\
   ext_pillar g minion_id pillar env root [] = (Unmodelled, [])) \/
  (in_scope g env /\
   exists path, resolve_path g minion_id pillar root = Ok path /\
                ext_pillar g minion_id pillar env root [] = fetch g path []).
Proof.
  destruct (scope_dec g env) as [Hout | Hin].
  { left. split; [exact Hout | apply ext_pillar_scoped_out, Hout]. }
  right. destruct (resolve_path g minion_id pillar root) as [path|e|] eqn:Hpath.
  - right; right. split; [exact Hin|]. exists path. split; [reflexivity|].
    apply ext_pillar_in_scope; assumption.
  - left. split; [exact Hin|]. exists e. split; [reflexivity|].
    apply ext_pillar_substitution_raises; assumption.
  - right; left. split; [exact Hin|]. split; [reflexivity|].
    unfold ext_pillar. cbv zeta. rewrite (in_scope_check _ _ Hin).
    unfold mbind, M_bind, lift. rewrite Hpath. reflexivity.
Qed.

(** X15: whatever the accessor does, a run that stays within the
    embedded part of [str.format] makes no remote call or exactly one,
    and the one call is made with the resolved path. *)
Theorem ext_pillar_calls_at_most_once g minion_id pillar env root :
  (ext_pillar g minion_id pillar env root []).1 <> Unmodelled ->
  calls (ext_pillar g minion_id pillar env root []).2 = [] \/
  exists path,
    resolve_path g minion_id pillar root = Ok path /\
    calls (ext_pillar g minion_id pillar env root []).2 = [path].
Proof.
  intros Hmodelled.
  destruct (ext_pillar_shape g minion_id pillar env root)
    as [[_ E] | [(_ & e & _ & E) | [(_ & _ & E) | (_ & path & Hpath & E)]]];
    rewrite E in Hmodelled |- *; try (left; reflexivity).
  destruct (fetch_shape g path)
    as [[v F] | [F | [F | [F | (e & _ & F)]]]]; rewrite F;
    try (right; exists path; split; [exact Hpath | reflexivity]).
  left. reflexivity.
Qed.

Lemma ext_pillar_calls_at_most_once_witness :
  calls (ext_pillar (sample_globals missing_accessor) "web1" "auth" PNone
           "/{env}" []).2 = [] \/
  exists path,
    resolve_path (sample_globals missing_accessor) "web1" "auth" "/{env}"
    = Ok path /\
    calls (ext_pillar (sample_globals missing_accessor) "web1" "auth" PNone
             "/{env}" []).2 = [path].
Proof.
  apply (ext_pillar_calls_at_most_once (sample_globals missing_accessor)
           "web1" "auth" PNone "/{env}").
  vm_compute. discriminate.
Defined.

(** X16: whatever the accessor does, a run that stays within the
    embedded part of [str.format] writes no log entry or exactly one; a
    run that writes one returns the empty mapping, and the entry is the
    INFO entry of line 118 or the ERROR entry of line 120, each naming
    the resolved path. *)
Theorem ext_pillar_log_entries g minion_id pillar env root :
  (ext_pillar g minion_id pillar env root []).1 <> Unmodelled ->
  logged (ext_pillar g minion_id pillar env root []).2 = [] \/
  ((ext_pillar g minion_id pillar env root []).1 = Ok empty_dict /\
   exists path,
     resolve_path g minion_id pillar root = Ok path /\
     (logged (ext_pillar g minion_id pillar env root []).2
      = [(INFO, "SSM parameter not found for: " +:+ path)] \/
      logged (ext_pillar g minion_id pillar env root []).2
      = [(ERROR, "No such path in SSM: " +:+ path)])).
Proof.
  intros Hmodelled.
  destruct (ext_pillar_shape g minion_id pillar env root)
    as [[_ E] | [(_ & e & _ & E) | [(_ & _ & E) | (_ & path & Hpath & E)]]];
    rewrite E in Hmodelled |- *; try (left; reflexivity).
  destruct (fetch_shape g path)
    as [[v F] | [F | [F | [F | (e & _ & F)]]]]; rewrite F;
    try (left; reflexivity);
    right; (split; [reflexivity|]); exists path; (split; [exact Hpath|]);
    [left | right | right]; reflexivity.
Qed.

Lemma ext_pillar_log_entries_witness :
  logged (ext_pillar (sample_globals missing_accessor) "web1" "auth" PNone
            "/{env}" []).2 = [] \/
  ((ext_pillar (sample_globals missing_accessor) "web1" "auth" PNone
      "/{env}" []).1 = Ok empty_dict /\
   exists path,
     resolve_path (sample_globals missing_accessor) "web1" "auth" "/{env}"
     = Ok path /\
     (logged (ext_pillar (sample_globals missing_accessor) "web1" "auth" PNone
                "/{env}" []).2
      = [(INFO, "SSM parameter not found for: " +:+ path)] \/
      logged (ext_pillar (sample_globals missing_accessor) "web1" "auth" PNone
                "/{env}" []).2
      = [(ERROR, "No such path in SSM: " +:+ path)])).
Proof.
  apply (ext_pillar_log_entries (sample_globals missing_accessor)
           "web1" "auth" PNone "/{env}").
  vm_compute. discriminate.
Defined.

(** X17: an exception that reaches the caller is never logged, and it
    comes from one of two places: from the substitution of lines
    110-111, before any remote call, or from line 114-116 after the one
    remote call, and then it is not a [KeyError]. *)
Theorem ext_pillar_raised_origin g minion_id pillar env root e tr :
  ext_pillar g minion_id pillar env root [] = (Raised e, tr) ->
  logged tr = [] /\
  ((resolve_path g minion_id pillar root = Raised e /\ tr = []) \/
   (exists path,
       resolve_path g minion_id pillar root = Ok path /\
       tr = [EvCall path] /\
       forall key, e <> KeyError key)).
Proof.
  intros Hrun.
  destruct (ext_pillar_shape g minion_id pillar env root)
    as [[_ E] | [(_ & e' & Hpath & E) | [(_ & _ & E) | (_ & path & Hpath & E)]]];
    rewrite E in Hrun; try discriminate.
  - injection Hrun as <- <-. split; [reflexivity|]. left. split; [exact Hpath | reflexivity].
  - destruct (fetch_shape g path)
      as [[v F] | [F | [F | [F | (e' & He & F)]]]]; rewrite F in Hrun;
      try discriminate.
    injection Hrun as <- <-. split; [reflexivity|].
    right. exists path. repeat split; [exact Hpath | exact He].
Qed.

Lemma ext_pillar_raised_origin_witness :
  logged [EvCall "/auth"] = [] /\
  ((resolve_path (sample_globals failing_accessor) "web1" "auth" ""
    = Raised (OtherError "BotoServerError") /\ [EvCall "/auth"] = []) \/
   (exists path,
       resolve_path (sample_globals failing_accessor) "web1" "auth" "" = Ok path /\
       [EvCall "/auth"] = [EvCall path] /\
       forall key, OtherError "BotoServerError" <> KeyError key)).
Proof.
  apply (ext_pillar_raised_origin (sample_globals failing_accessor)
           "web1" "auth" PNone "" (OtherError "BotoServerError") [EvCall "/auth"]).
  vm_compute. reflexivity.
Defined.

(** X18: a 200 answer whose payload is not an object (a list, a string,
    a number, a boolean, null) makes line 116 raise [AttributeError],
    which the [except KeyError] clause lets through to the caller. *)
Theorem ext_pillar_payload_not_object
  g f minion_id pillar env root path r payload :
  in_scope g env ->
  resolve_path g minion_id pillar root = Ok path ->
  salt g !! "boto_ssm.get_parameter" = Some f ->
  f path = Returns r ->
  status_code r = 200 ->
  json_body r = Returns payload ->
  (forall items, payload <> JObj items) ->
  exists msg,
    ext_pillar g minion_id pillar env root []
    = (Raised (AttributeError msg), [EvCall path]).
Proof.
  intros Hin Hpath Hsalt Hf Hs Hj Hnot.
  rewrite (ext_pillar_in_scope _ _ _ _ _ _ _ Hin Hpath).
  unfold_run. rewrite Hsalt, Hf. simpl. rewrite Hs, Hj. simpl.
  destruct payload; simpl; try (eexists; reflexivity).
  exfalso. eapply Hnot. reflexivity.
Qed.

Lemma ext_pillar_payload_not_object_witness :
  exists msg,
    ext_pillar (sample_globals list_accessor) "web1" "auth" PNone "" []
    = (Raised (AttributeError msg), [EvCall "/auth"]).
Proof.
  apply (ext_pillar_payload_not_object (sample_globals list_accessor)
           list_accessor "web1" "auth" PNone "" "/auth"
           {| status_code := 200; json_body := Returns (JArr []) |} (JArr [])).
  - left. reflexivity.
  - vm_compute. reflexivity.
  - vm_compute. reflexivity.
  - reflexivity.
  - reflexivity.
  - reflexivity.
  - intros items. discriminate.
Defined.

(** X19: when [response.json()] raises on a 200 answer, a [KeyError] is
    absorbed like one of the accessor (an ERROR entry and the empty
    mapping), and any other exception reaches the caller unlogged. *)
Theorem ext_pillar_body_raises g f minion_id pillar env root path r e :
  in_scope g env ->
  resolve_path g minion_id pillar root = Ok path ->
  salt g !! "boto_ssm.get_parameter" = Some f ->
  f path = Returns r ->
  status_code r = 200 ->
  json_body r = Raises e ->
  ext_pillar g minion_id pillar env root []
  = match e with
    | KeyError _ =>
        (Ok empty_dict,
         [EvCall path; EvLog ERROR ("No such path in SSM: " +:+ path)])
    | _ => (Raised e, [EvCall path])
    end.
Proof.
  intros Hin Hpath Hsalt Hf Hs Hj.
  rewrite (ext_pillar_in_scope _ _ _ _ _ _ _ Hin Hpath).
  unfold_run. rewrite Hsalt, Hf. simpl. rewrite Hs, Hj. simpl.
  destruct e; reflexivity.
Qed.

Lemma ext_pillar_body_raises_witness :
  ext_pillar (sample_globals garbled_accessor) "web1" "auth" PNone "" []
  = (Raised (ValueError "Expecting value"), [EvCall "/auth"]).
Proof.
  apply (ext_pillar_body_raises (sample_globals garbled_accessor)
           garbled_accessor "web1" "auth" PNone "" "/auth"
           {| status_code := 200;
              json_body := Raises (ValueError "Expecting value") |}
           (ValueError "Expecting value")).
  - left. reflexivity.
  - vm_compute. reflexivity.
  - vm_compute. reflexivity.
  - reflexivity.
  - reflexivity.
  - reflexivity.
Defined.

(** X20: when the dispatch table does not hold
    [boto_ssm.get_parameter], line 114 raises [KeyError] before any
    call: the run makes no remote call, writes the ERROR entry of line
    120 and returns the empty mapping. *)
Theorem ext_pillar_accessor_not_loaded g minion_id pillar env root path :
  in_scope g env ->
  resolve_path g minion_id pillar root = Ok path ->
  salt g !! "boto_ssm.get_parameter" = None ->
  ext_pillar g minion_id pillar env root []
  = (Ok empty_dict, [EvLog ERROR ("No such path in SSM: " +:+ path)]) /\
  calls (ext_pillar g minion_id pillar env root []).2 = [].
Proof.
  intros Hin Hpath Hsalt.
  rewrite (ext_pillar_in_scope _ _ _ _ _ _ _ Hin Hpath).
  rewrite (fetch_unregistered _ _ [] Hsalt). split; reflexivity.
Qed.

Lemma ext_pillar_accessor_not_loaded_witness :
  ext_pillar {| opts := ∅; salt := ∅ |} "web1" "auth" PNone "" []
  = (Ok empty_dict, [EvLog ERROR ("No such path in SSM: " +:+ "/auth")]) /\
  calls (ext_pillar {| opts := ∅; salt := ∅ |} "web1" "auth" PNone "" []).2 = [].
Proof.
  apply (ext_pillar_accessor_not_loaded {| opts := ∅; salt := ∅ |}
           "web1" "auth" PNone "" "/auth").
  - left. reflexivity.
  - vm_compute. reflexivity.
  - vm_compute. reflexivity.
Defined.
